(** * IAM performance-test seeding scripts: a shallow embedding

    The Python scripts under [scripts/] talk to an identity server over HTTP
    (through the [requests] package), read one line from standard input (the
    clean-up script) and terminate through [sys.exit].  They are embedded
    here as programs of a small state-and-exception monad over a world made
    of the remote server, the list of HTTP requests issued so far and the
    pending standard input.

    Conventions of the embedding:
    - a value decoded from JSON is a [json]; JSON [null] is Python's [None];
      JSON numbers are integers here (floats are not modelled);
    - Python strings are [string]s of ASCII characters;
    - the [print_success]/[print_warning]/[print_error]/[print] calls only
      write to the terminal; they never raise and no control flow depends on
      them, so console output is left out of the world;
    - a Python exception is an [exn]; [sys.exit n] raises [SystemExit n];
      an exception that reaches the top of [main] ends the process. *)

From Stdlib Require Import ZArith NArith List String Ascii Bool Lia.
From Stdlib Require Import DecimalString DecimalN.
Import ListNotations.

#[local] Set Warnings "-register-all".

Local Open Scope string_scope.
Local Open Scope Z_scope.

(** ** Values decoded from JSON and Python's view of them *)

Inductive json : Type :=
| JNull
| JBool (b : bool)
| JNum (n : Z)
| JStr (s : string)
| JArr (items : list json)
| JObj (members : list (string * json)).

(** A Python [dict] with string keys, in insertion order. *)
Definition dict := list (string * json).

(** Python truthiness ([if v:], [not v], [v or w]). *)
Definition truthy (v : json) : bool :=
  match v with
  | JNull => false
  | JBool b => b
  | JNum n => negb (n =? 0)
  | JStr s => negb (s =? "")%string
  | JArr items => match items with [] => false | _ :: _ => true end
  | JObj members => match members with [] => false | _ :: _ => true end
  end.

Fixpoint lookup (k : string) (d : dict) : option json :=
  match d with
  | [] => None
  | (k', v) :: rest => if (k' =? k)%string then Some v else lookup k rest
  end.

(** [d.get(k, default)] on a dict. *)
Definition dict_get (d : dict) (k : string) (default : json) : json :=
  match lookup k d with
  | Some v => v
  | None => default
  end.

(** [str | None] configuration values. *)
Definition opt_truthy (o : option string) : bool :=
  match o with
  | Some s => negb (s =? "")%string
  | None => false
  end.

(** ** Strings *)

Definition digits (n : N) : string := NilZero.string_of_uint (N.to_uint n).

(** [str(i)] for an [int]. *)
Definition str_of_Z (i : Z) : string :=
  if i <? 0 then "-" ++ digits (Z.abs_N i) else digits (Z.to_N i).

Fixpoint zeros (k : nat) : string :=
  match k with
  | O => ""
  | S k' => String "0" (zeros k')
  end.

(** Left padding with zeros up to [width] characters. *)
Definition zfill (width : nat) (s : string) : string :=
  zeros (width - String.length s) ++ s.

(** [f"{i:03d}"]: sign first, then zeros, then the decimal digits; the
    sign counts in the width. *)
Definition format_03d (i : Z) : string :=
  if i <? 0 then "-" ++ zfill 2 (digits (Z.abs_N i))
  else zfill 3 (digits (Z.to_N i)).

Definition lower_ascii (c : ascii) : ascii :=
  let n := N_of_ascii c in
  if ((65 <=? n) && (n <=? 90))%N then ascii_of_N (n + 32) else c.

(** [s.lower()] *)
Fixpoint lower (s : string) : string :=
  match s with
  | EmptyString => EmptyString
  | String c r => String (lower_ascii c) (lower r)
  end.

(** The ASCII characters Python's [str.strip()] removes. *)
Definition is_space (c : ascii) : bool :=
  let n := N_of_ascii c in
  (((9 <=? n) && (n <=? 13)) || ((28 <=? n) && (n <=? 32)))%N.

Fixpoint lstrip (s : string) : string :=
  match s with
  | EmptyString => EmptyString
  | String c r => if is_space c then lstrip r else s
  end.

Fixpoint rev_string (s acc : string) : string :=
  match s with
  | EmptyString => acc
  | String c r => rev_string r (String c acc)
  end.

Definition rstrip (s : string) : string :=
  rev_string (lstrip (rev_string s "")) "".

(** [s.strip()] *)
Definition strip (s : string) : string := rstrip (lstrip s).

(** [k.startswith(p)] *)
Definition startswith (k p : string) : bool := String.prefix p k.

(** [s.split(sep)] for a one-character separator. *)
Fixpoint split (sep : ascii) (s : string) : list string :=
  match s with
  | EmptyString => [EmptyString]
  | String c r =>
      if Ascii.eqb c sep then EmptyString :: split sep r
      else match split sep r with
           | h :: t => String c h :: t
           | [] => [String c EmptyString]
           end
  end.

(** [l[-1]] on the (never empty) result of [split]. *)
Definition last_item (l : list string) : string := List.last l "".

(** [range(lo, hi)] *)
Definition py_range (lo hi : Z) : list Z :=
  map (fun k => lo + Z.of_nat k) (seq 0 (Z.to_nat (hi - lo))).

(** ** HTTP requests and responses *)

Inductive method := GET | POST | PUT | DELETE.

Inductive body :=
| NoBody
| FormBody (data : list (string * string))
| JsonBody (j : json).

Record request := mkRequest {
  rq_method : method;
  rq_url : string;
  rq_headers : list (string * string);
  rq_params : list (string * json);
  rq_body : body;
  rq_timeout : Z
}.

(** What the scripts read of a [requests.Response].  [json_body] is the
    result of decoding [text]; [None] when [text] is not JSON. *)
Record response := mkResponse {
  status_code : Z;
  headers : list (string * string);
  text : string;
  json_body : option json
}.

(** [response.headers.get(name, "")]: header names compare without case. *)
Fixpoint header_get (name : string) (hs : list (string * string)) : string :=
  match hs with
  | [] => ""
  | (k, v) :: rest =>
      if (lower k =? lower name)%string then v else header_get name rest
  end.

(** The answer to one request: a response, or a transport-level failure
    (connection refused, timeout, ...), which [requests] raises as a
    [RequestException]. *)
Inductive reply :=
| Response (r : response)
| Failure.

Inductive exn :=
| RequestException
| JSONDecodeError
| AttributeError
| KeyError
| IndexError
| TypeError
| KeyboardInterrupt
| EOFError
| SystemExit (code : Z).

Inductive input_event :=
| Line (s : string)
| Interrupt
| EndOfInput.

(** The environment the scripts run in: a deterministic server with its
    own state, Python's [repr] of lists and dicts (used when one is
    interpolated in an f-string), and whether the installed [requests]
    raises a [RequestException] subclass when a body is not JSON (it does
    from release 2.27 on; older releases raise a plain [ValueError]). *)
Record environment := mkEnvironment {
  server : Type;
  handle : server -> request -> server * reply;
  py_repr : json -> string;
  json_error_is_request_exception : bool
}.

Inductive result (A : Type) :=
| Ret (a : A)
| Raise (e : exn).
Arguments Ret {A} a.
Arguments Raise {A} e.

Section Monad.
Variable E : environment.

Record world := mkWorld {
  srv : server E;
  sent : list request;
  stdin : list input_event
}.

Definition M (A : Type) : Type := world -> result A * world.

Definition ret {A} (a : A) : M A := fun w => (Ret a, w).

Definition bind {A B} (m : M A) (k : A -> M B) : M B :=
  fun w =>
    match m w with
    | (Ret a, w') => k a w'
    | (Raise e, w') => (Raise e, w')
    end.

Definition raise {A} (e : exn) : M A := fun w => (Raise e, w).

(** [sys.exit(code)] *)
Definition sys_exit {A} (code : Z) : M A := raise (SystemExit code).

(** [try: m  except <catches>: h] *)
Definition try_except {A} (m : M A) (catches : exn -> bool) (h : M A) : M A :=
  fun w =>
    match m w with
    | (Ret a, w') => (Ret a, w')
    | (Raise e, w') => if catches e then h w' else (Raise e, w')
    end.

(** [except requests.exceptions.RequestException] *)
Definition is_RequestException (e : exn) : bool :=
  match e with
  | RequestException => true
  | JSONDecodeError => json_error_is_request_exception E
  | _ => false
  end.

(** [except Exception]: everything but [SystemExit] and
    [KeyboardInterrupt]. *)
Definition is_Exception (e : exn) : bool :=
  match e with
  | SystemExit _ | KeyboardInterrupt => false
  | _ => true
  end.

(** [except (json.JSONDecodeError, KeyError)] *)
Definition is_JSONDecodeError_or_KeyError (e : exn) : bool :=
  match e with
  | JSONDecodeError | KeyError => true
  | _ => false
  end.

(** [except (KeyboardInterrupt, EOFError)] *)
Definition is_KeyboardInterrupt_or_EOFError (e : exn) : bool :=
  match e with
  | KeyboardInterrupt | EOFError => true
  | _ => false
  end.

(** [requests.get/post/put/delete]: the request is recorded, the server
    moves on, and a transport failure is raised. *)
Definition http (rq : request) : M response :=
  fun w =>
    let (s', r) := handle E (srv w) rq in
    let w' := mkWorld s' (sent w ++ [rq]) (stdin w) in
    match r with
    | Response resp => (Ret resp, w')
    | Failure => (Raise RequestException, w')
    end.

(** [response.raise_for_status()] *)
Definition raise_for_status (r : response) : M unit :=
  if (400 <=? status_code r) && (status_code r <? 600)
  then raise RequestException
  else ret tt.

(** [response.json()] *)
Definition response_json (r : response) : M json :=
  match json_body r with
  | Some j => ret j
  | None => raise JSONDecodeError
  end.

(** [v.get(k, default)]: only a dict has [get]. *)
Definition py_get (v : json) (k : string) (default : json) : M json :=
  match v with
  | JObj d => ret (dict_get d k default)
  | _ => raise AttributeError
  end.

(** [v[0]] *)
Definition py_index0 (v : json) : M json :=
  match v with
  | JArr (x :: _) => ret x
  | JArr [] => raise IndexError
  | JStr (String c _) => ret (JStr (String c EmptyString))
  | JStr EmptyString => raise IndexError
  | JObj _ => raise KeyError
  | _ => raise TypeError
  end.

(** [str(v)], as an f-string interpolates a value. *)
Definition py_str (v : json) : string :=
  match v with
  | JNull => "None"
  | JBool true => "True"
  | JBool false => "False"
  | JNum n => str_of_Z n
  | JStr s => s
  | _ => py_repr E v
  end.

(** [input(prompt)] *)
Definition input : M string :=
  fun w =>
    match stdin w with
    | Line s :: rest => (Ret s, mkWorld (srv w) (sent w) rest)
    | Interrupt :: rest => (Raise KeyboardInterrupt, mkWorld (srv w) (sent w) rest)
    | EndOfInput :: rest => (Raise EOFError, mkWorld (srv w) (sent w) rest)
    | [] => (Raise EOFError, w)
    end.

(** [for x in l: s = body(x, s)] with the loop's variables threaded as [s]. *)
Fixpoint for_in {A S} (l : list A) (body : A -> S -> M S) (s : S) : M S :=
  match l with
  | [] => ret s
  | x :: rest => bind (body x s) (for_in rest body)
  end.

End Monad.

Arguments ret {E A} a.
Arguments bind {E A B} m k.
Arguments raise {E A} e.
Arguments sys_exit {E A} code.
Arguments try_except {E A} m catches h.
Arguments http {E} rq.
Arguments raise_for_status {E} r.
Arguments response_json {E} r.
Arguments py_get {E} v k default.
Arguments py_index0 {E} v.
Arguments input {E}.
Arguments for_in {E A S} l body s.
Arguments srv {E} w.
Arguments sent {E} w.
Arguments stdin {E} w.
Arguments mkWorld {E} srv sent stdin.

Declare Scope py_scope.
Delimit Scope py_scope with py.
Notation "x <- m ;; k" := (bind m (fun x => k))
  (at level 61, m at next level, right associativity) : py_scope.
Notation "m ;;; k" := (bind m (fun _ => k))
  (at level 61, right associativity) : py_scope.
Local Open Scope py_scope.


(** [x in (a, b, ...)] on status codes. *)
Definition in_ (x : Z) (l : list Z) : bool := existsb (Z.eqb x) l.

(** [s in ("y", "yes")] *)
Definition in_str (s : string) (l : list string) : bool :=
  existsb (String.eqb s) l.

(** The exit status of the process, from what [main] ends with: an
    uncaught exception makes the interpreter exit with status 1 (130 for a
    keyboard interrupt). *)
Definition exit_code (r : result unit) : Z :=
  match r with
  | Ret _ => 0
  | Raise (SystemExit code) => code
  | Raise KeyboardInterrupt => 130
  | Raise _ => 1
  end.

(** ** lib/config.py *)

Record Config := mkConfig {
  iam_provider : string;
  base_url : string;
  request_timeout : Z;
  admin_username : string;
  admin_password : string;
  admin_realm : string;
  admin_client_id : option string;
  admin_client_secret : option string;
  keycloak_auth_client : string;
  perf_realm : string;
  client_id : string;
  client_secret : option string;
  user_count : Z;
  user_password : string;
  user_prefix : string;
  user_firstname : string;
  user_lastname_prefix : string;
  user_email_prefix : string;
  user_email_domain : string
}.

(** [v = os.getenv(NAME, "").strip(); v if v else None], as [load_config]
    reads [CLIENT_SECRET], [ADMIN_CLIENT_ID] and [ADMIN_CLIENT_SECRET]. *)
Definition optional_setting (env_value : option string) : option string :=
  let v := strip (match env_value with Some s => s | None => "" end) in
  if negb (v =? "")%string then Some v else None.

(** [secrets.choice(chars)]: the character at a drawn position; the draw
    is reduced into range. *)
Definition choice (chars : string) (draw : nat) : ascii :=
  match String.get (draw mod String.length chars) chars with
  | Some c => c
  | None => "000"%char
  end.

(** ["".join(secrets.choice(chars) for _ in range(length))], the k-th draw
    being [draws k]. *)
Definition random_string (draws : nat -> nat) (chars : string) (length : Z)
  : string :=
  string_of_list_ascii
    (map (fun k => choice chars (draws k)) (seq 0 (Z.to_nat length))).

Definition ascii_lowercase : string := "abcdefghijklmnopqrstuvwxyz".
Definition ascii_uppercase : string := "ABCDEFGHIJKLMNOPQRSTUVWXYZ".
Definition ascii_letters : string := ascii_lowercase ++ ascii_uppercase.
Definition ascii_digits : string := "0123456789".

Definition generate_random_id (draws : nat -> nat) (prefix : string)
  (length : Z) : string :=
  let chars := ascii_lowercase ++ ascii_digits in
  let suffix := random_string draws chars length in
  prefix ++ suffix.

(** [os.getenv(name, default)] *)
Definition getenv (env : string -> option string) (name default : string)
  : string :=
  match env name with
  | Some v => v
  | None => default
  end.

(** [load_config], over the process environment [env] (as left by
    [load_dotenv]), Python's [int] on a string ([None] where it raises
    [ValueError]) and the random draws.  The result is [None] when one of
    the two [int(...)] conversions raises. *)
Definition load_config (env : string -> option string)
  (py_int : string -> option Z) (draws : nat -> nat) : option Config :=
  let iam_provider := lower (getenv env "IAM_PROVIDER" "ferriskey") in
  let '(default_base_url, default_admin_realm, default_perf_realm) :=
    if (iam_provider =? "keycloak")%string
    then ("http://localhost:8080", "master", "perf")
    else ("http://localhost:3333", "master", "perf-realm") in
  let client_id_env := strip (getenv env "CLIENT_ID" "") in
  let client_id :=
    if negb (client_id_env =? "")%string then client_id_env
    else generate_random_id draws "perf-client-" 8 in
  let client_secret := optional_setting (env "CLIENT_SECRET") in
  let admin_client_id := optional_setting (env "ADMIN_CLIENT_ID") in
  let admin_client_secret := optional_setting (env "ADMIN_CLIENT_SECRET") in
  match py_int (getenv env "REQUEST_TIMEOUT" "30") with
  | None => None
  | Some request_timeout =>
      match py_int (getenv env "USER_COUNT" "50") with
      | None => None
      | Some user_count =>
          Some (mkConfig iam_provider
                  (getenv env "BASE_URL" default_base_url)
                  request_timeout
                  (getenv env "ADMIN_USERNAME" "admin")
                  (getenv env "ADMIN_PASSWORD" "admin")
                  (getenv env "ADMIN_REALM" default_admin_realm)
                  admin_client_id
                  admin_client_secret
                  (getenv env "KEYCLOAK_AUTH_CLIENT" "admin-cli")
                  (getenv env "PERF_REALM" default_perf_realm)
                  client_id
                  client_secret
                  user_count
                  (getenv env "USER_PASSWORD" "perf-password")
                  (getenv env "USER_PREFIX" "perf-user-")
                  (getenv env "USER_FIRSTNAME" "Perf")
                  (getenv env "USER_LASTNAME_PREFIX" "User")
                  (getenv env "USER_EMAIL_PREFIX" "perf")
                  (getenv env "USER_EMAIL_DOMAIN" "test.local"))
      end
  end.

(** ** lib/ferriskey_provider.py *)

Module FerrisKeyProvider.
Section Provider.
Variable E : environment.
Variable config : Config.

Definition bearer (token : json) : list (string * string) :=
  [("Authorization", "Bearer " ++ py_str E token);
   ("Content-Type", "application/json")].

Definition get_admin_token : M E json :=
  match admin_client_id config with
  | None => sys_exit 1
  | Some cid =>
      if (cid =? "")%string then sys_exit 1
      else
        let url := base_url config ++ "/realms/" ++ admin_realm config
                   ++ "/protocol/openid-connect/token" in
        let data := [("grant_type", "password");
                     ("client_id", cid);
                     ("username", admin_username config);
                     ("password", admin_password config)] in
        let data :=
          match admin_client_secret config with
          | Some sec =>
              if negb (sec =? "")%string
              then (data ++ [("client_secret", sec)])%list else data
          | None => data
          end in
        try_except
          (response <- http (mkRequest POST url [] [] (FormBody data)
                               (request_timeout config)) ;;
           raise_for_status response ;;;
           body <- response_json response ;;
           token <- py_get body "access_token" JNull ;;
           if negb (truthy token) then sys_exit 1 else ret token)
          (is_RequestException E)
          (sys_exit 1)
  end.

Definition create_realm (token : json) (realm_name : string) : M E bool :=
  let url := base_url config ++ "/realms" in
  let data := JObj [("name", JStr realm_name)] in
  try_except
    (response <- http (mkRequest POST url (bearer token) [] (JsonBody data)
                         (request_timeout config)) ;;
     if in_ (status_code response) [200; 201] then ret true
     else if in_ (status_code response) [400; 409] then ret true
     else ret false)
    (is_RequestException E)
    (ret false).

Definition create_client (token : json) (realm : string) (client_data : dict)
  : M E json :=
  let url := base_url config ++ "/realms/" ++ realm ++ "/clients" in
  let clean_data :=
    filter (fun kv => negb (startswith (fst kv) "_")) client_data in
  try_except
    (response <- http (mkRequest POST url (bearer token) []
                         (JsonBody (JObj clean_data)) (request_timeout config)) ;;
     if in_ (status_code response) [200; 201] then
       try_except
         (result <- response_json response ;;
          data <- py_get result "data" (JObj []) ;;
          id <- py_get data "id" JNull ;;
          if truthy id then ret id else py_get result "id" JNull)
         is_Exception
         (ret JNull)
     else if in_ (status_code response) [400; 409] then ret JNull
     else ret JNull)
    (is_RequestException E)
    (ret JNull).

Definition create_user (token : json) (realm username firstname lastname email : string)
  : M E json :=
  let url := base_url config ++ "/realms/" ++ realm ++ "/users" in
  let data := JObj [("username", JStr username);
                    ("firstname", JStr firstname);
                    ("lastname", JStr lastname);
                    ("email", JStr email);
                    ("email_verified", JBool true)] in
  try_except
    (response <- http (mkRequest POST url (bearer token) [] (JsonBody data)
                         (request_timeout config)) ;;
     if in_ (status_code response) [200; 201] then
       try_except
         (result <- response_json response ;;
          data <- py_get result "data" (JObj []) ;;
          id <- py_get data "id" JNull ;;
          if truthy id then ret id else py_get result "id" JNull)
         is_Exception
         (ret JNull)
     else ret JNull)
    (is_RequestException E)
    (ret JNull).

Definition get_client_secret (token : json) (realm : string) (client_uuid : json)
  : M E json :=
  let url := base_url config ++ "/realms/" ++ realm ++ "/clients/"
             ++ py_str E client_uuid in
  let headers := [("Authorization", "Bearer " ++ py_str E token)] in
  try_except
    (response <- http (mkRequest GET url headers [] NoBody
                         (request_timeout config)) ;;
     if status_code response =? 200 then
       data <- response_json response ;;
       inner <- py_get data "data" (JObj []) ;;
       secret <- py_get inner "secret" JNull ;;
       if truthy secret then ret secret else py_get data "secret" JNull
     else ret JNull)
    (is_RequestException E)
    (ret JNull).

(** The descriptor [create_default_client] builds. *)
Definition default_client_data : dict :=
  [("name", JStr "Performance Test Client");
   ("client_id", JStr (client_id config));
   ("client_type", JStr "confidential");
   ("service_account_enabled", JBool true);
   ("public_client", JBool false);
   ("protocol", JStr "openid-connect");
   ("enabled", JBool true);
   ("direct_access_grants_enabled", JBool true)].

Definition create_default_client (token : json) (realm : string)
  : M E (json * json) :=
  client_uuid <- create_client token realm default_client_data ;;
  if negb (truthy client_uuid) then ret (JNull, JNull)
  else
    client_secret <- get_client_secret token realm client_uuid ;;
    ret (client_uuid, client_secret).

(** [generate_random_secret], the k-th draw being [draws k]. *)
Definition generate_random_secret (draws : nat -> nat) (length : Z) : string :=
  let chars := ascii_letters ++ ascii_digits in
  random_string draws chars length.

(** The request [set_user_password] issues. *)
Definition set_user_password_request (token : json) (realm : string)
  (user_id : json) (password : string) : request :=
  mkRequest PUT
    (base_url config ++ "/realms/" ++ realm ++ "/users/" ++ py_str E user_id
     ++ "/reset-password")
    (bearer token) []
    (JsonBody (JObj [("temporary", JBool false);
                     ("credential_type", JStr "password");
                     ("value", JStr password)]))
    (request_timeout config).

Definition set_user_password (token : json) (realm : string) (user_id : json)
  (password : string) : M E bool :=
  if negb (truthy user_id) then ret false
  else
    try_except
      (response <- http (set_user_password_request token realm user_id password) ;;
       ret (in_ (status_code response) [200; 204]))
      (is_RequestException E)
      (ret false).

End Provider.
End FerrisKeyProvider.

(** ** lib/keycloak_provider.py *)

Module KeycloakProvider.
Section Provider.
Variable E : environment.
Variable config : Config.

Definition bearer (token : json) : list (string * string) :=
  [("Authorization", "Bearer " ++ py_str E token);
   ("Content-Type", "application/json")].

Definition get_admin_token : M E json :=
  let url := base_url config ++ "/realms/" ++ admin_realm config
             ++ "/protocol/openid-connect/token" in
  let data := [("grant_type", "password");
               ("client_id", keycloak_auth_client config);
               ("username", admin_username config);
               ("password", admin_password config)] in
  try_except
    (response <- http (mkRequest POST url [] [] (FormBody data)
                         (request_timeout config)) ;;
     raise_for_status response ;;;
     body <- response_json response ;;
     token <- py_get body "access_token" JNull ;;
     if negb (truthy token) then sys_exit 1 else ret token)
    (is_RequestException E)
    (sys_exit 1).

Definition create_realm (token : json) (realm_name : string) : M E bool :=
  let url := base_url config ++ "/admin/realms" in
  let data := JObj [("realm", JStr realm_name);
                    ("enabled", JBool true);
                    ("displayName", JStr (realm_name ++ " Performance Testing"))] in
  try_except
    (response <- http (mkRequest POST url (bearer token) [] (JsonBody data)
                         (request_timeout config)) ;;
     if in_ (status_code response) [200; 201; 204] then ret true
     else if status_code response =? 409 then ret true
     else ret false)
    (is_RequestException E)
    (ret false).

Definition _get_client_uuid (token : json) (realm : string) (client_id : json)
  : M E json :=
  let url := base_url config ++ "/admin/realms/" ++ realm ++ "/clients" in
  let headers := [("Authorization", "Bearer " ++ py_str E token)] in
  let params := [("clientId", client_id)] in
  try_except
    (response <- http (mkRequest GET url headers params NoBody
                         (request_timeout config)) ;;
     if status_code response =? 200 then
       clients <- response_json response ;;
       if truthy clients then
         first <- py_index0 clients ;;
         py_get first "id" JNull
       else ret JNull
     else ret JNull)
    (is_RequestException E)
    (ret JNull).

(** The camelCase descriptor [create_client] sends. *)
Definition keycloak_client (client_data : dict) : json :=
  JObj [("clientId", dict_get client_data "client_id" JNull);
        ("name", dict_get client_data "name" JNull);
        ("enabled", dict_get client_data "enabled" (JBool true));
        ("protocol", dict_get client_data "protocol" (JStr "openid-connect"));
        ("publicClient", dict_get client_data "public_client" (JBool false));
        ("serviceAccountsEnabled",
          dict_get client_data "service_account_enabled" (JBool false));
        ("directAccessGrantsEnabled",
          dict_get client_data "direct_access_grants_enabled" (JBool true));
        ("standardFlowEnabled", JBool true)].

Definition create_client (token : json) (realm : string) (client_data : dict)
  : M E json :=
  let client_id := dict_get client_data "client_id" (JStr "unknown") in
  let url := base_url config ++ "/admin/realms/" ++ realm ++ "/clients" in
  try_except
    (response <- http (mkRequest POST url (bearer token) []
                         (JsonBody (keycloak_client client_data))
                         (request_timeout config)) ;;
     if in_ (status_code response) [200; 201; 204] then
       let location := header_get "Location" (headers response) in
       if negb (location =? "")%string
       then ret (JStr (last_item (split "/" location)))
       else ret JNull
     else if status_code response =? 409 then
       _get_client_uuid token realm client_id
     else ret JNull)
    (is_RequestException E)
    (ret JNull).

(** The requests of the two client-secret endpoints. *)
Definition get_client_secret_request (token : json) (realm : string)
  (client_uuid : json) : request :=
  mkRequest GET
    (base_url config ++ "/admin/realms/" ++ realm ++ "/clients/"
     ++ py_str E client_uuid ++ "/client-secret")
    [("Authorization", "Bearer " ++ py_str E token)] [] NoBody
    (request_timeout config).

Definition generate_client_secret_request (token : json) (realm : string)
  (client_uuid : json) : request :=
  mkRequest POST
    (base_url config ++ "/admin/realms/" ++ realm ++ "/clients/"
     ++ py_str E client_uuid ++ "/client-secret")
    [("Authorization", "Bearer " ++ py_str E token)] [] NoBody
    (request_timeout config).

Definition get_client_secret (token : json) (realm : string) (client_uuid : json)
  : M E json :=
  try_except
    (response <- http (get_client_secret_request token realm client_uuid) ;;
     if status_code response =? 200 then
       body <- response_json response ;;
       py_get body "value" JNull
     else ret JNull)
    (is_RequestException E)
    (ret JNull).

Definition generate_client_secret (token : json) (realm : string)
  (client_uuid : json) : M E json :=
  try_except
    (response <- http (generate_client_secret_request token realm client_uuid) ;;
     if status_code response =? 200 then
       body <- response_json response ;;
       py_get body "value" JNull
     else ret JNull)
    (is_RequestException E)
    (ret JNull).

(** The descriptor [create_default_client] builds. *)
Definition default_client_data : dict :=
  [("name", JStr "Performance Test Client");
   ("client_id", JStr (client_id config));
   ("client_type", JStr "confidential");
   ("service_account_enabled", JBool true);
   ("public_client", JBool false);
   ("protocol", JStr "openid-connect");
   ("enabled", JBool true);
   ("direct_access_grants_enabled", JBool true)].

Definition create_default_client (token : json) (realm : string)
  : M E (json * json) :=
  client_uuid <- create_client token realm default_client_data ;;
  if negb (truthy client_uuid) then ret (JNull, JNull)
  else
    secret <- get_client_secret token realm client_uuid ;;
    secret <- (if negb (truthy secret)
               then generate_client_secret token realm client_uuid
               else ret secret) ;;
    ret (client_uuid, secret).

(** The request [create_user] posts. *)
Definition create_user_request (token : json)
  (realm username firstname lastname email : string) : request :=
  mkRequest POST (base_url config ++ "/admin/realms/" ++ realm ++ "/users")
    (bearer token) []
    (JsonBody (JObj [("username", JStr username);
                     ("firstName", JStr firstname);
                     ("lastName", JStr lastname);
                     ("email", JStr email);
                     ("emailVerified", JBool true);
                     ("enabled", JBool true)]))
    (request_timeout config).

Definition create_user (token : json)
  (realm username firstname lastname email : string) : M E json :=
  try_except
    (response <- http (create_user_request token realm username firstname
                         lastname email) ;;
     if in_ (status_code response) [200; 201; 204] then
       let location := header_get "Location" (headers response) in
       if negb (location =? "")%string
       then ret (JStr (last_item (split "/" location)))
       else ret JNull
     else ret JNull)
    (is_RequestException E)
    (ret JNull).

(** The request [set_user_password] issues. *)
Definition set_user_password_request (token : json) (realm : string)
  (user_id : json) (password : string) : request :=
  mkRequest PUT
    (base_url config ++ "/admin/realms/" ++ realm ++ "/users/"
     ++ py_str E user_id ++ "/reset-password")
    (bearer token) []
    (JsonBody (JObj [("type", JStr "password");
                     ("value", JStr password);
                     ("temporary", JBool false)]))
    (request_timeout config).

Definition set_user_password (token : json) (realm : string) (user_id : json)
  (password : string) : M E bool :=
  if negb (truthy user_id) then ret false
  else
    try_except
      (response <- http (set_user_password_request token realm user_id password) ;;
       ret (in_ (status_code response) [200; 204]))
      (is_RequestException E)
      (ret false).

End Provider.
End KeycloakProvider.

(** ** seed_test_data.py *)

Module seed_test_data.

(** The module-level [CONFIG] dict. *)
Record CONFIG_t := mkCONFIG {
  base_url : string;
  admin_username : string;
  admin_password : string;
  admin_realm : string;
  perf_realm : string;
  client_id : string;
  client_secret : string;
  user_count : Z;
  user_password : string
}.

Section Script.
Variable E : environment.
Variable CONFIG : CONFIG_t.
(** The content of [data/clients.json]; [None] when the file does not
    exist. *)
Variable clients_file : option (list dict).

Definition bearer (token : json) : list (string * string) :=
  [("Authorization", "Bearer " ++ py_str E token);
   ("Content-Type", "application/json")].

Definition get_admin_token : M E json :=
  let url := base_url CONFIG ++ "/realms/" ++ admin_realm CONFIG
             ++ "/protocol/openid-connect/token" in
  let data := [("grant_type", "password");
               ("client_id", client_id CONFIG);
               ("client_secret", client_secret CONFIG);
               ("username", admin_username CONFIG);
               ("password", admin_password CONFIG)] in
  try_except
    (response <- http (mkRequest POST url [] [] (FormBody data) 30) ;;
     raise_for_status response ;;;
     body <- response_json response ;;
     token <- py_get body "access_token" JNull ;;
     if negb (truthy token) then sys_exit 1 else ret token)
    (is_RequestException E)
    (sys_exit 1).

Definition create_realm (token : json) (realm_name : string) : M E bool :=
  let url := base_url CONFIG ++ "/realms" in
  let data := JObj [("name", JStr realm_name)] in
  try_except
    (response <- http (mkRequest POST url (bearer token) [] (JsonBody data) 30) ;;
     if in_ (status_code response) [200; 201] then ret true
     else if in_ (status_code response) [400; 409] then ret true
     else ret false)
    (is_RequestException E)
    (ret false).

Definition create_client (token : json) (realm : string) (client_data : dict)
  : M E json :=
  let url := base_url CONFIG ++ "/realms/" ++ realm ++ "/clients" in
  let clean_data :=
    filter (fun kv => negb (startswith (fst kv) "_")) client_data in
  try_except
    (response <- http (mkRequest POST url (bearer token) []
                         (JsonBody (JObj clean_data)) 30) ;;
     if in_ (status_code response) [200; 201] then
       try_except
         (result <- response_json response ;;
          data <- py_get result "data" (JObj []) ;;
          id <- py_get data "id" JNull ;;
          if truthy id then ret id else py_get result "id" JNull)
         is_JSONDecodeError_or_KeyError
         (ret JNull)
     else if in_ (status_code response) [400; 409] then ret JNull
     else ret JNull)
    (is_RequestException E)
    (ret JNull).

(** The request [create_user] posts. *)
Definition create_user_request (token : json) (realm username firstname lastname email : string)
  : request :=
  mkRequest POST (base_url CONFIG ++ "/realms/" ++ realm ++ "/users")
    (bearer token) []
    (JsonBody (JObj [("username", JStr username);
                     ("firstname", JStr firstname);
                     ("lastname", JStr lastname);
                     ("email", JStr email);
                     ("email_verified", JBool true)]))
    30.

Definition create_user (token : json) (realm username firstname lastname email : string)
  : M E json :=
  try_except
    (response <- http (create_user_request token realm username firstname
                         lastname email) ;;
     if in_ (status_code response) [200; 201] then
       try_except
         (result <- response_json response ;;
          data <- py_get result "data" (JObj []) ;;
          id <- py_get data "id" JNull ;;
          if truthy id then ret id else py_get result "id" JNull)
         is_JSONDecodeError_or_KeyError
         (ret JNull)
     else if in_ (status_code response) [400; 409] then ret JNull
     else ret JNull)
    (is_RequestException E)
    (ret JNull).

Definition set_user_password (token : json) (realm : string) (user_id : json)
  (password : string) : M E bool :=
  if negb (truthy user_id) then ret false
  else
    let url := base_url CONFIG ++ "/realms/" ++ realm ++ "/users/"
               ++ py_str E user_id ++ "/reset-password" in
    let data := JObj [("temporary", JBool false);
                      ("credential_type", JStr "password");
                      ("value", JStr password)] in
    try_except
      (response <- http (mkRequest PUT url (bearer token) [] (JsonBody data) 30) ;;
       ret (in_ (status_code response) [200; 204]))
      (is_RequestException E)
      (ret false).

Definition load_clients_fixture : M E (list dict) :=
  match clients_file with
  | Some clients => ret clients
  | None => ret []
  end.

(** The names [main] derives for index [i]. *)
Definition username (i : Z) : string := "perf-user-" ++ format_03d i.
Definition lastname (i : Z) : string := "User" ++ format_03d i.
Definition email (i : Z) : string := "perf" ++ format_03d i ++ "@test.local".

(** One turn of the [for i in range(1, user_count + 1)] loop of [main], on
    the counters [(created, failed)]. *)
Definition user_loop_body (admin_token : json) (i : Z) (counters : Z * Z)
  : M E (Z * Z) :=
  let '(created, failed) := counters in
  user_id <- create_user admin_token (perf_realm CONFIG) (username i) "Perf"
               (lastname i) (email i) ;;
  if truthy user_id then
    ok <- set_user_password admin_token (perf_realm CONFIG) user_id
            (user_password CONFIG) ;;
    if ok then ret (created + 1, failed) else ret (created, failed + 1)
  else ret (created, failed + 1).

(** Step 4 of [main]: the counters start at zero and the loop runs over
    [range(1, user_count + 1)]. *)
Definition create_test_users (admin_token : json) : M E (Z * Z) :=
  for_in (py_range 1 (user_count CONFIG + 1)) (user_loop_body admin_token) (0, 0).

Definition main : M E unit :=
  admin_token <- get_admin_token ;;
  create_realm admin_token (perf_realm CONFIG) ;;;
  clients <- load_clients_fixture ;;
  for_in clients
    (fun client_data (_ : unit) =>
       create_client admin_token (perf_realm CONFIG) client_data ;;; ret tt)
    tt ;;;
  create_test_users admin_token ;;;
  ret tt.

End Script.
End seed_test_data.

(** ** cleanup_test_data_keycloak.py *)

Module cleanup_test_data_keycloak.

Record CONFIG_t := mkCONFIG {
  base_url : string;
  admin_username : string;
  admin_password : string;
  admin_realm : string;
  perf_realm : string
}.

Section Script.
Variable E : environment.
Variable CONFIG : CONFIG_t.

Definition get_admin_token : M E json :=
  let url := base_url CONFIG ++ "/realms/" ++ admin_realm CONFIG
             ++ "/protocol/openid-connect/token" in
  let data := [("grant_type", "password");
               ("client_id", "admin-cli");
               ("username", admin_username CONFIG);
               ("password", admin_password CONFIG)] in
  try_except
    (response <- http (mkRequest POST url [] [] (FormBody data) 30) ;;
     raise_for_status response ;;;
     body <- response_json response ;;
     token <- py_get body "access_token" JNull ;;
     if negb (truthy token) then sys_exit 1 else ret token)
    (is_RequestException E)
    (sys_exit 1).

(** The request [delete_realm] issues. *)
Definition delete_realm_request (token : json) (realm_name : string) : request :=
  mkRequest DELETE (base_url CONFIG ++ "/admin/realms/" ++ realm_name)
    [("Authorization", "Bearer " ++ py_str E token)] [] NoBody 30.

Definition delete_realm (token : json) (realm_name : string) : M E bool :=
  try_except
    (response <- http (delete_realm_request token realm_name) ;;
     if in_ (status_code response) [200; 204] then ret true
     else if status_code response =? 404 then ret true
     else ret false)
    (is_RequestException E)
    (ret false).

Definition confirm_deletion : M E bool :=
  try_except
    (response <- input ;;
     ret (in_str (lower (strip response)) ["y"; "yes"]))
    is_KeyboardInterrupt_or_EOFError
    (ret false).

Definition main : M E unit :=
  confirmed <- confirm_deletion ;;
  if negb confirmed then sys_exit 0
  else
    admin_token <- get_admin_token ;;
    delete_realm admin_token (perf_realm CONFIG) ;;;
    ret tt.

End Script.
End cleanup_test_data_keycloak.

(** ** Requests the operations issue, and what a reply carries

    Named here so that statements can speak about the server's answer to a
    given request. *)

Definition token_url (base realm : string) : string :=
  base ++ "/realms/" ++ realm ++ "/protocol/openid-connect/token".

Module Requests.
Section Requests.
Variable E : environment.
Variable config : Config.

(** The form fields of Backend B's token request for administrative
    client identifier [cid]. *)
Definition ferriskey_token_fields (cid : string) : list (string * string) :=
  [("grant_type", "password");
   ("client_id", cid);
   ("username", admin_username config);
   ("password", admin_password config)]
  ++ (if opt_truthy (admin_client_secret config)
      then match admin_client_secret config with
           | Some sec => [("client_secret", sec)]
           | None => []
           end
      else []).

Definition ferriskey_token (cid : string) : request :=
  mkRequest POST (token_url (base_url config) (admin_realm config)) [] []
    (FormBody (ferriskey_token_fields cid)) (request_timeout config).

Definition keycloak_token : request :=
  mkRequest POST (token_url (base_url config) (admin_realm config)) [] []
    (FormBody [("grant_type", "password");
               ("client_id", keycloak_auth_client config);
               ("username", admin_username config);
               ("password", admin_password config)])
    (request_timeout config).

Definition ferriskey_create_realm (token : json) (realm_name : string) : request :=
  mkRequest POST (base_url config ++ "/realms")
    (FerrisKeyProvider.bearer E token) []
    (JsonBody (JObj [("name", JStr realm_name)])) (request_timeout config).

Definition keycloak_create_realm (token : json) (realm_name : string) : request :=
  mkRequest POST (base_url config ++ "/admin/realms")
    (KeycloakProvider.bearer E token) []
    (JsonBody (JObj [("realm", JStr realm_name);
                     ("enabled", JBool true);
                     ("displayName", JStr (realm_name ++ " Performance Testing"))]))
    (request_timeout config).

Definition ferriskey_create_client (token : json) (realm : string)
  (client_data : dict) : request :=
  mkRequest POST (base_url config ++ "/realms/" ++ realm ++ "/clients")
    (FerrisKeyProvider.bearer E token) []
    (JsonBody (JObj (filter (fun kv => negb (startswith (fst kv) "_")) client_data)))
    (request_timeout config).

Definition ferriskey_get_client (token : json) (realm : string)
  (client_uuid : json) : request :=
  mkRequest GET
    (base_url config ++ "/realms/" ++ realm ++ "/clients/" ++ py_str E client_uuid)
    [("Authorization", "Bearer " ++ py_str E token)] [] NoBody
    (request_timeout config).

Definition keycloak_create_client (token : json) (realm : string)
  (client_data : dict) : request :=
  mkRequest POST (base_url config ++ "/admin/realms/" ++ realm ++ "/clients")
    (KeycloakProvider.bearer E token) []
    (JsonBody (KeycloakProvider.keycloak_client client_data))
    (request_timeout config).

Definition keycloak_list_clients (token : json) (realm : string)
  (client_id : json) : request :=
  mkRequest GET (base_url config ++ "/admin/realms/" ++ realm ++ "/clients")
    [("Authorization", "Bearer " ++ py_str E token)]
    [("clientId", client_id)] NoBody (request_timeout config).

End Requests.
End Requests.

(** The world after the server has answered [rq] from world [w]. *)
Definition after {E : environment} (w : world E) (rq : request) : world E :=
  mkWorld (fst (handle E (srv w) rq)) (sent w ++ [rq]) (stdin w).

(** The server's answer to [rq] in world [w]. *)
Definition answer {E : environment} (w : world E) (rq : request) : reply :=
  snd (handle E (srv w) rq).

(** The [access_token] a decoded token response carries, if any. *)
Definition access_token_of (j : json) : option json :=
  match j with
  | JObj d =>
      let v := dict_get d "access_token" JNull in
      if truthy v then Some v else None
  | _ => None
  end.

(** [data.k] preferred, top-level [k] as fallback, for a decoded body whose
    [data] member is absent or an object. *)
Definition nested_or_top (k : string) (d : dict) : json :=
  let nested :=
    match lookup "data" d with
    | Some (JObj inner) => dict_get inner k JNull
    | _ => JNull
    end in
  if truthy nested then nested else dict_get d k JNull.

(** The [data] member of a decoded body is absent or an object. *)
Definition data_member_ok (d : dict) : bool :=
  match lookup "data" d with
  | None | Some (JObj _) => true
  | Some _ => false
  end.

(** A response that carries the given status and decoded body. *)
Definition json_response (status : Z) (j : json) : response :=
  mkResponse status [] "" (Some j).

(** A server that plays back a fixed list of replies, one per request, and
    fails at the transport level once the list is exhausted. *)
Definition scripted_handle (s : list reply) (rq : request) : list reply * reply :=
  match s with
  | [] => ([], Failure)
  | r :: rest => (rest, r)
  end.

Definition scripted : environment :=
  mkEnvironment (list reply) scripted_handle (fun _ => "<repr>") true.

Definition scripted_world (replies : list reply) (keys : list input_event)
  : world scripted :=
  mkWorld (E := scripted) replies [] keys.

Definition sample_config : Config :=
  mkConfig "ferriskey" "http://localhost:3333" 30 "admin" "admin" "master"
    (Some "admin-client") None "admin-cli" "perf-realm" "perf-client-ab12cd34"
    None 50 "perf-password" "perf-user-" "Perf" "User" "perf" "test.local".

Definition sample_seed_config (n : Z) : seed_test_data.CONFIG_t :=
  seed_test_data.mkCONFIG "http://localhost:3333" "admin" "admin" "perf-realm"
    "perf-realm" "perf-client" "perf-client-secret" n "perf-password".

Definition sample_cleanup_config : cleanup_test_data_keycloak.CONFIG_t :=
  cleanup_test_data_keycloak.mkCONFIG "http://localhost:8080" "admin" "admin"
    "master" "perf".

(** The pending input starts with a line that reads, once stripped and
    lower-cased, "y" or "yes". *)
Definition affirmative (keys : list input_event) : bool :=
  match keys with
  | Line s :: _ => in_str (lower (strip s)) ["y"; "yes"]
  | _ => false
  end.

(** What a token call [m] does from world [w] when the server answers its
    request [rq] with a success status and decoded body [j]: with an
    [access_token] in [j] the call returns it; without one the call raises
    [SystemExit 1] (or, when [j] is not even an object, an [AttributeError]
    nothing catches), and whatever program is sequenced after the call
    never runs: the token request stays the only one issued. *)
Definition token_or_fatal {E : environment} (m : M E json) (w : world E)
  (rq : request) (j : json) : Prop :=
  match access_token_of j with
  | Some tok => m w = (Ret tok, after w rq)
  | None =>
      exists e,
        (e = SystemExit 1 \/ e = AttributeError)
        /\ m w = (Raise e, after w rq)
        /\ forall (A : Type) (rest : json -> M E A),
             (tok <- m ;; rest tok) w = (Raise e, after w rq)
  end.

(** What the body of a token call makes of a reply, case by case. *)
Definition token_outcome (E : environment) (r : response) : result json :=
  if (400 <=? status_code r) && (status_code r <? 600) then Raise (SystemExit 1)
  else match json_body r with
       | None =>
           if json_error_is_request_exception E
           then Raise (SystemExit 1) else Raise JSONDecodeError
       | Some (JObj d) =>
           if truthy (dict_get d "access_token" JNull)
           then Ret (dict_get d "access_token" JNull)
           else Raise (SystemExit 1)
       | Some _ => Raise AttributeError
       end.

(** [c in s] *)
Fixpoint has_char (c : ascii) (s : string) : bool :=
  match s with
  | EmptyString => false
  | String c' r => Ascii.eqb c' c || has_char c r
  end.

(** The identifier Backend A reads from a creation response: the text
    after the last "/" of the [Location] header; [None] when the header is
    absent or empty. *)
Definition location_uuid (r : response) : json :=
  let location := header_get "Location" (headers r) in
  if (location =? "")%string then JNull
  else JStr (last_item (split "/" location)).

(** The number a string of decimal digits denotes; [None] when some
    character is not a digit. *)
Definition decimal_value (s : string) : option N :=
  option_map N.of_uint (NilEmpty.uint_of_string s).

(** Every success reply (200 or 201) the server can give carries a body
    that is not JSON at all, or an object whose [data] member is absent or
    an object. *)
Definition replies_well_shaped (E : environment) : Prop :=
  forall (s s' : server E) (rq : request) (r : response),
    handle E s rq = (s', Response r) ->
    in_ (status_code r) [200; 201] = true ->
    match json_body r with
    | None => True
    | Some (JObj d) => data_member_ok d = true
    | Some _ => False
    end.

(** The request the user loop posts for index [i]. *)
Definition user_request (E : environment) (CONFIG : seed_test_data.CONFIG_t)
  (admin_token : json) (i : Z) : request :=
  seed_test_data.create_user_request E CONFIG admin_token
    (seed_test_data.perf_realm CONFIG) (seed_test_data.username i) "Perf"
    (seed_test_data.lastname i) (seed_test_data.email i).

(** A server that answers every request with the same reply. *)
Definition constant_server (r : reply) : environment :=
  mkEnvironment unit (fun _ _ => (tt, r)) (fun _ => "<repr>") true.

(** ** seed_test_data_keycloak.py *)

Module seed_test_data_keycloak.

(** The module-level [CONFIG] dict. *)
Record CONFIG_t := mkCONFIG {
  base_url : string;
  admin_username : string;
  admin_password : string;
  admin_realm : string;
  perf_realm : string;
  client_id : string;
  client_secret : string;
  user_count : Z;
  user_password : string
}.

Section Script.
Variable E : environment.
Variable CONFIG : CONFIG_t.
(** The content of [data/clients.json]; [None] when the file does not
    exist. *)
Variable clients_file : option (list dict).

Definition bearer (token : json) : list (string * string) :=
  [("Authorization", "Bearer " ++ py_str E token);
   ("Content-Type", "application/json")].

(** The request [get_admin_token] posts. *)
Definition token_request : request :=
  mkRequest POST
    (base_url CONFIG ++ "/realms/" ++ admin_realm CONFIG
     ++ "/protocol/openid-connect/token") [] []
    (FormBody [("grant_type", "password");
               ("client_id", "admin-cli");
               ("username", admin_username CONFIG);
               ("password", admin_password CONFIG)])
    30.

Definition get_admin_token : M E json :=
  try_except
    (response <- http token_request ;;
     raise_for_status response ;;;
     body <- response_json response ;;
     token <- py_get body "access_token" JNull ;;
     if negb (truthy token) then sys_exit 1 else ret token)
    (is_RequestException E)
    (sys_exit 1).

(** The request [create_realm] posts. *)
Definition create_realm_request (token : json) (realm_name : string) : request :=
  mkRequest POST (base_url CONFIG ++ "/admin/realms") (bearer token) []
    (JsonBody (JObj [("realm", JStr realm_name);
                     ("enabled", JBool true);
                     ("displayName", JStr (realm_name ++ " Performance Testing"))]))
    30.

Definition create_realm (token : json) (realm_name : string) : M E bool :=
  try_except
    (response <- http (create_realm_request token realm_name) ;;
     if in_ (status_code response) [200; 201; 204] then ret true
     else if status_code response =? 409 then ret true
     else ret false)
    (is_RequestException E)
    (ret false).

(** The descriptor [create_client] sends: camelCase, with the configured
    secret. *)
Definition keycloak_client (client_data : dict) : json :=
  JObj [("clientId", dict_get client_data "client_id" JNull);
        ("name", dict_get client_data "name" JNull);
        ("enabled", dict_get client_data "enabled" (JBool true));
        ("protocol", dict_get client_data "protocol" (JStr "openid-connect"));
        ("publicClient", dict_get client_data "public_client" (JBool false));
        ("serviceAccountsEnabled",
          dict_get client_data "service_account_enabled" (JBool false));
        ("directAccessGrantsEnabled",
          dict_get client_data "direct_access_grants_enabled" (JBool true));
        ("standardFlowEnabled", JBool true);
        ("secret", JStr (client_secret CONFIG))].

(** The request [create_client] posts. *)
Definition create_client_request (token : json) (realm : string)
  (client_data : dict) : request :=
  mkRequest POST (base_url CONFIG ++ "/admin/realms/" ++ realm ++ "/clients")
    (bearer token) [] (JsonBody (keycloak_client client_data)) 30.

Definition create_client (token : json) (realm : string) (client_data : dict)
  : M E json :=
  try_except
    (response <- http (create_client_request token realm client_data) ;;
     if in_ (status_code response) [200; 201; 204] then
       let location := header_get "Location" (headers response) in
       if negb (location =? "")%string
       then ret (JStr (last_item (split "/" location)))
       else ret JNull
     else if status_code response =? 409 then ret JNull
     else ret JNull)
    (is_RequestException E)
    (ret JNull).

(** The request [create_user] posts. *)
Definition create_user_request (token : json)
  (realm username firstname lastname email : string) : request :=
  mkRequest POST (base_url CONFIG ++ "/admin/realms/" ++ realm ++ "/users")
    (bearer token) []
    (JsonBody (JObj [("username", JStr username);
                     ("firstName", JStr firstname);
                     ("lastName", JStr lastname);
                     ("email", JStr email);
                     ("emailVerified", JBool true);
                     ("enabled", JBool true)]))
    30.

Definition create_user (token : json)
  (realm username firstname lastname email : string) : M E json :=
  try_except
    (response <- http (create_user_request token realm username firstname
                         lastname email) ;;
     if in_ (status_code response) [200; 201; 204] then
       let location := header_get "Location" (headers response) in
       if negb (location =? "")%string
       then ret (JStr (last_item (split "/" location)))
       else ret JNull
     else if status_code response =? 409 then ret JNull
     else ret JNull)
    (is_RequestException E)
    (ret JNull).

(** The request [set_user_password] issues. *)
Definition set_user_password_request (token : json) (realm : string)
  (user_id : json) (password : string) : request :=
  mkRequest PUT
    (base_url CONFIG ++ "/admin/realms/" ++ realm ++ "/users/"
     ++ py_str E user_id ++ "/reset-password")
    (bearer token) []
    (JsonBody (JObj [("type", JStr "password");
                     ("value", JStr password);
                     ("temporary", JBool false)]))
    30.

Definition set_user_password (token : json) (realm : string) (user_id : json)
  (password : string) : M E bool :=
  if negb (truthy user_id) then ret false
  else
    try_except
      (response <- http (set_user_password_request token realm user_id password) ;;
       ret (in_ (status_code response) [200; 204]))
      (is_RequestException E)
      (ret false).

Definition load_clients_fixture : M E (list dict) :=
  match clients_file with
  | Some clients => ret clients
  | None => ret []
  end.

(** The names [main] derives for index [i]. *)
Definition username (i : Z) : string := "perf-user-" ++ format_03d i.
Definition lastname (i : Z) : string := "User" ++ format_03d i.
Definition email (i : Z) : string := "perf" ++ format_03d i ++ "@test.local".

(** The create-user request of index [i]. *)
Definition user_request (admin_token : json) (i : Z) : request :=
  create_user_request admin_token (perf_realm CONFIG) (username i) "Perf"
    (lastname i) (email i).

(** One turn of the [for i in range(1, user_count + 1)] loop of [main], on
    the counters [(created, failed)]. *)
Definition user_loop_body (admin_token : json) (i : Z) (counters : Z * Z)
  : M E (Z * Z) :=
  let '(created, failed) := counters in
  user_id <- create_user admin_token (perf_realm CONFIG) (username i) "Perf"
               (lastname i) (email i) ;;
  if truthy user_id then
    ok <- set_user_password admin_token (perf_realm CONFIG) user_id
            (user_password CONFIG) ;;
    if ok then ret (created + 1, failed) else ret (created, failed + 1)
  else ret (created, failed + 1).

(** Step 4 of [main]. *)
Definition create_test_users (admin_token : json) : M E (Z * Z) :=
  for_in (py_range 1 (user_count CONFIG + 1)) (user_loop_body admin_token) (0, 0).

(** Step 3 of [main]. *)
Definition create_test_clients (admin_token : json) (clients : list dict)
  : M E unit :=
  for_in clients
    (fun client_data (_ : unit) =>
       create_client admin_token (perf_realm CONFIG) client_data ;;; ret tt)
    tt.

Definition main : M E unit :=
  admin_token <- get_admin_token ;;
  create_realm admin_token (perf_realm CONFIG) ;;;
  clients <- load_clients_fixture ;;
  create_test_clients admin_token clients ;;;
  create_test_users admin_token ;;;
  ret tt.

End Script.
End seed_test_data_keycloak.

(** ** Traces *)

(** The requests issued between world [w] and a later world [w']. *)
Definition issued {E : environment} (w w' : world E) (tr : list request) : Prop :=
  sent w' = (sent w ++ tr)%list.

(** The characters of [s] all occur in [chars]. *)
Definition all_in (chars s : string) : Prop :=
  Forall (fun c => has_char c chars = true) (list_ascii_of_string s).

Definition is_post (rq : request) : bool :=
  match rq_method rq with
  | POST => true
  | _ => false
  end.

(** What Backend A's two client-secret calls make of a reply. *)
Definition secret_outcome (E : environment) (r : reply) : result json :=
  match r with
  | Failure => Ret JNull
  | Response resp =>
      if status_code resp =? 200 then
        match json_body resp with
        | Some (JObj d) => Ret (dict_get d "value" JNull)
        | Some _ => Raise AttributeError
        | None =>
            if json_error_is_request_exception E
            then Ret JNull else Raise JSONDecodeError
        end
      else Ret JNull
  end.

(** The identifier Backend B's [create_client] and [create_user] read from
    a reply: [data.id], else the top-level [id], of a 200/201 object body
    whose [data] member is absent or an object; [None] for anything else. *)
Definition ferriskey_id_of (r : reply) : json :=
  match r with
  | Failure => JNull
  | Response resp =>
      if in_ (status_code resp) [200; 201] then
        match json_body resp with
        | Some (JObj d) =>
            if data_member_ok d then nested_or_top "id" d else JNull
        | _ => JNull
        end
      else JNull
  end.

(** The identifier Backend A reads from a reply to a creation request. *)
Definition keycloak_id_of (r : reply) : json :=
  match r with
  | Failure => JNull
  | Response resp =>
      if in_ (status_code resp) [200; 201; 204] then location_uuid resp
      else JNull
  end.

(** Whether a reply to a set-password request counts as success. *)
Definition password_set (r : reply) : bool :=
  match r with
  | Failure => false
  | Response resp => in_ (status_code resp) [200; 204]
  end.


Definition seed_token_request (CONFIG : seed_test_data.CONFIG_t) : request :=
  mkRequest POST
    (token_url (seed_test_data.base_url CONFIG) (seed_test_data.admin_realm CONFIG))
    [] []
    (FormBody [("grant_type", "password");
               ("client_id", seed_test_data.client_id CONFIG);
               ("client_secret", seed_test_data.client_secret CONFIG);
               ("username", seed_test_data.admin_username CONFIG);
               ("password", seed_test_data.admin_password CONFIG)])
    30.

Definition seed_realm_request (E : environment) (CONFIG : seed_test_data.CONFIG_t)
  (token : json) (realm_name : string) : request :=
  mkRequest POST (seed_test_data.base_url CONFIG ++ "/realms")
    (seed_test_data.bearer E token) []
    (JsonBody (JObj [("name", JStr realm_name)])) 30.

Definition seed_client_request (E : environment) (CONFIG : seed_test_data.CONFIG_t)
  (token : json) (realm : string) (client_data : dict) : request :=
  mkRequest POST (seed_test_data.base_url CONFIG ++ "/realms/" ++ realm ++ "/clients")
    (seed_test_data.bearer E token) []
    (JsonBody (JObj (filter (fun kv => negb (startswith (fst kv) "_")) client_data)))
    30.

Definition sample_keycloak_seed_config (n : Z) : seed_test_data_keycloak.CONFIG_t :=
  seed_test_data_keycloak.mkCONFIG "http://localhost:8080" "admin" "admin"
    "master" "perf" "perf-client" "perf-client-secret" n "perf-password".

(** An environment in which only [ADMIN_USERNAME] is set. *)
Definition sample_env (name : string) : option string :=
  if (name =? "ADMIN_USERNAME")%string then Some "root" else None.

(** An [int] good enough for the defaults: it reads "30" and "50" only. *)
Definition sample_int (s : string) : option Z :=
  if (s =? "30")%string then Some 30
  else if (s =? "50")%string then Some 50 else None.

(** The configuration loaded from [sample_env]. *)
Definition sample_loaded_config : Config :=
  match load_config sample_env sample_int (fun k => k) with
  | Some config => config
  | None => sample_config
  end.

(** * Properties *)

(** ** Running the monad *)

Ltac run_py :=
  unfold py_get, py_index0, response_json, raise_for_status, sys_exit,
    try_except, http, bind, raise, ret, after, answer in *;
  cbn [fst snd] in *.

Ltac case_reply w rq :=
  let s := fresh "s'" in
  let r := fresh "r" in
  destruct (handle _ (srv w) rq) as [s [r|]] eqn:?; cbn [fst snd] in *.

Lemma in_cons (x y : Z) (l : list Z) :
  in_ x (y :: l) = (x =? y) || in_ x l.
Proof. reflexivity. Qed.

Section RealmPolicy.
Variable E : environment.
Variable config : Config.
Variables (token : json) (realm_name : string).

Lemma keycloak_create_realm_run (w : world E) :
  KeycloakProvider.create_realm E config token realm_name w =
    (Ret match answer w (Requests.keycloak_create_realm E config token realm_name) with
         | Response r => in_ (status_code r) [200; 201; 204; 409]
         | Failure => false
         end,
     after w (Requests.keycloak_create_realm E config token realm_name)).
Proof.
  unfold KeycloakProvider.create_realm, Requests.keycloak_create_realm.
  run_py.
  match goal with |- context [handle E (srv w) ?rq] => case_reply w rq end.
  - rewrite !in_cons.
    destruct (status_code r =? 200), (status_code r =? 201),
      (status_code r =? 204), (status_code r =? 409); reflexivity.
  - reflexivity.
Qed.

Lemma ferriskey_create_realm_run (w : world E) :
  FerrisKeyProvider.create_realm E config token realm_name w =
    (Ret match answer w (Requests.ferriskey_create_realm E config token realm_name) with
         | Response r => in_ (status_code r) [200; 201; 400; 409]
         | Failure => false
         end,
     after w (Requests.ferriskey_create_realm E config token realm_name)).
Proof.
  unfold FerrisKeyProvider.create_realm, Requests.ferriskey_create_realm.
  run_py.
  match goal with |- context [handle E (srv w) ?rq] => case_reply w rq end.
  - rewrite !in_cons.
    destruct (status_code r =? 200), (status_code r =? 201),
      (status_code r =? 400), (status_code r =? 409); reflexivity.
  - reflexivity.
Qed.

End RealmPolicy.

(** C3 (as stated, refuted): on status 400 Backend A's create-realm
    reports failure, so "400 or 409 yields success for every backend" does
    not hold. *)
Lemma C3_counterexample :
  ~ (forall (E : environment) (config : Config) (token : json)
            (realm_name : string) (w : world E) (r : response),
        answer w (Requests.keycloak_create_realm E config token realm_name)
          = Response r ->
        in_ (status_code r) [400; 409] = true ->
        fst (KeycloakProvider.create_realm E config token realm_name w)
          = Ret true).
Proof.
  intro H.
  specialize (H scripted sample_config (JStr "tok") "perf"
                (scripted_world [Response (mkResponse 400 [] "" None)] [])
                (mkResponse 400 [] "" None) eq_refl eq_refl).
  vm_compute in H. discriminate H.
Qed.

(** C3 (amended): create-realm never raises and its boolean is decided by
    the reply alone: Backend A (Keycloak) succeeds exactly on 200, 201, 204
    and 409; Backend B (FerrisKey) exactly on 200, 201, 400 and 409; any
    other status and any transport failure give [false].  Hence two calls in
    a row succeed when the first reply is in the backend's success class and
    the second in its "already exists" class (409 for A; 400 or 409 for B). *)
Theorem C3_create_realm_status_policy :
  forall (E : environment) (config : Config) (token : json)
         (realm_name : string) (w : world E),
    let rqA := Requests.keycloak_create_realm E config token realm_name in
    let rqB := Requests.ferriskey_create_realm E config token realm_name in
    let createA := KeycloakProvider.create_realm E config token realm_name in
    let createB := FerrisKeyProvider.create_realm E config token realm_name in
    createA w =
      (Ret match answer w rqA with
           | Response r => in_ (status_code r) [200; 201; 204; 409]
           | Failure => false
           end, after w rqA)
    /\ createB w =
      (Ret match answer w rqB with
           | Response r => in_ (status_code r) [200; 201; 400; 409]
           | Failure => false
           end, after w rqB)
    /\ (forall r1 r2,
          answer w rqA = Response r1 ->
          answer (after w rqA) rqA = Response r2 ->
          in_ (status_code r1) [200; 201; 204] = true ->
          status_code r2 = 409 ->
          (b1 <- createA ;; b2 <- createA ;; ret (b1, b2)) w
            = (Ret (true, true), after (after w rqA) rqA))
    /\ (forall r1 r2,
          answer w rqB = Response r1 ->
          answer (after w rqB) rqB = Response r2 ->
          in_ (status_code r1) [200; 201] = true ->
          in_ (status_code r2) [400; 409] = true ->
          (b1 <- createB ;; b2 <- createB ;; ret (b1, b2)) w
            = (Ret (true, true), after (after w rqB) rqB)).
Proof.
  intros E config token realm_name w rqA rqB createA createB.
  split; [apply keycloak_create_realm_run|].
  split; [apply ferriskey_create_realm_run|].
  split; intros r1 r2 H1 H2 S1 S2.
  - unfold bind at 1. subst createA.
    rewrite keycloak_create_realm_run. fold rqA. rewrite H1.
    unfold bind at 1. rewrite keycloak_create_realm_run. fold rqA. rewrite H2.
    unfold ret. rewrite S2.
    rewrite !in_cons in *.
    destruct (status_code r1 =? 200), (status_code r1 =? 201),
      (status_code r1 =? 204); try discriminate; reflexivity.
  - unfold bind at 1. subst createB.
    rewrite ferriskey_create_realm_run. fold rqB. rewrite H1.
    unfold bind at 1. rewrite ferriskey_create_realm_run. fold rqB. rewrite H2.
    unfold ret. rewrite !in_cons in *.
    destruct (status_code r1 =? 200), (status_code r1 =? 201); try discriminate;
      destruct (status_code r2 =? 400), (status_code r2 =? 409);
      try discriminate; cbn; rewrite ?orb_true_r; reflexivity.
Qed.

(** Witness for C3: a realm created (201) and then found existing (409). *)
Lemma C3_create_realm_status_policy_witness :
  let w := scripted_world [Response (mkResponse 201 [] "" None);
                           Response (mkResponse 409 [] "" None)] [] in
  let createA := KeycloakProvider.create_realm scripted sample_config
                   (JStr "tok") "perf" in
  fst ((b1 <- createA ;; b2 <- createA ;; ret (b1, b2)) w) = Ret (true, true).
Proof.
  intros w createA.
  destruct (C3_create_realm_status_policy scripted sample_config (JStr "tok")
              "perf" w) as (_ & _ & H & _).
  subst createA.
  rewrite (H (mkResponse 201 [] "" None) (mkResponse 409 [] "" None)
             eq_refl eq_refl eq_refl eq_refl).
  reflexivity.
Defined.

(** ** Clean-up script *)

Lemma delete_realm_run E CONFIG token realm_name (w : world E) :
  cleanup_test_data_keycloak.delete_realm E CONFIG token realm_name w =
    (Ret match answer w (cleanup_test_data_keycloak.delete_realm_request
                           E CONFIG token realm_name) with
         | Response r => in_ (status_code r) [200; 204; 404]
         | Failure => false
         end,
     after w (cleanup_test_data_keycloak.delete_realm_request
                E CONFIG token realm_name)).
Proof.
  unfold cleanup_test_data_keycloak.delete_realm.
  run_py.
  match goal with |- context [handle E (srv w) ?rq] => case_reply w rq end.
  - rewrite !in_cons.
    destruct (status_code r =? 200), (status_code r =? 204),
      (status_code r =? 404); reflexivity.
  - reflexivity.
Qed.

Lemma confirm_deletion_run E (w : world E) :
  exists w',
    cleanup_test_data_keycloak.confirm_deletion E w
      = (Ret (affirmative (stdin w)), w')
    /\ sent w' = sent w /\ srv w' = srv w.
Proof.
  unfold cleanup_test_data_keycloak.confirm_deletion, input.
  run_py.
  destruct w as [s tr keys]; cbn [stdin sent srv].
  destruct keys as [|[l| |] rest]; cbn; eauto.
Qed.

(** C7: delete-realm never raises; it reports success exactly when the
    reply carries status 200, 204 or 404 and failure for every other status
    (and for a transport failure).  Once the run is confirmed and
    authenticated, [main] runs to its end whatever the delete-realm reply
    is, so the process exits with status 0. *)
Theorem C7_delete_realm_status_policy :
  forall (E : environment) (CONFIG : cleanup_test_data_keycloak.CONFIG_t)
         (token : json) (realm_name : string) (w : world E),
    let rq := cleanup_test_data_keycloak.delete_realm_request
                E CONFIG token realm_name in
    cleanup_test_data_keycloak.delete_realm E CONFIG token realm_name w =
      (Ret match answer w rq with
           | Response r => in_ (status_code r) [200; 204; 404]
           | Failure => false
           end, after w rq)
    /\ (forall w0 w1,
          cleanup_test_data_keycloak.confirm_deletion E w0
            = (Ret true, w1) ->
          cleanup_test_data_keycloak.get_admin_token E CONFIG w1
            = (Ret token, w) ->
          realm_name = cleanup_test_data_keycloak.perf_realm CONFIG ->
          cleanup_test_data_keycloak.main E CONFIG w0 = (Ret tt, after w rq)
          /\ exit_code (fst (cleanup_test_data_keycloak.main E CONFIG w0)) = 0).
Proof.
  intros E CONFIG token realm_name w rq.
  split; [apply delete_realm_run|].
  intros w0 w1 Hc Ha ->.
  assert (Hm : cleanup_test_data_keycloak.main E CONFIG w0 = (Ret tt, after w rq)).
  { unfold cleanup_test_data_keycloak.main.
    unfold bind at 1. rewrite Hc. cbn [negb].
    unfold bind at 1. rewrite Ha.
    unfold bind at 1. rewrite delete_realm_run. reflexivity. }
  split; [exact Hm|]. rewrite Hm. reflexivity.
Qed.

(** Witness for C7: a confirmed, authenticated run whose delete-realm call
    is answered with status 500 still ends normally. *)
Lemma C7_delete_realm_status_policy_witness :
  let w0 := scripted_world
              [Response (json_response 200 (JObj [("access_token", JStr "tok")]));
               Response (mkResponse 500 [] "boom" None)]
              [Line "y"] in
  fst (cleanup_test_data_keycloak.main scripted sample_cleanup_config w0) = Ret tt
  /\ exit_code (fst (cleanup_test_data_keycloak.main scripted sample_cleanup_config w0)) = 0.
Proof.
  intros w0.
  pose (w1 := mkWorld (E := scripted) (srv w0) [] []).
  pose (w := snd (cleanup_test_data_keycloak.get_admin_token scripted
                    sample_cleanup_config w1)).
  destruct (C7_delete_realm_status_policy scripted sample_cleanup_config
              (JStr "tok") "perf" w) as [_ H].
  destruct (H w0 w1 eq_refl eq_refl eq_refl) as [Hm Hx].
  split; [rewrite Hm; reflexivity | exact Hx].
Defined.

(** C9: when the answer to the confirmation prompt is anything but "y" or
    "yes" (after stripping white space and lower-casing), an interrupt or
    the end of input included, [main] ends through [sys.exit(0)] without
    having issued any HTTP request: the server is untouched and the exit
    status is 0. *)
Theorem C9_cleanup_aborts_without_confirmation :
  forall (E : environment) (CONFIG : cleanup_test_data_keycloak.CONFIG_t)
         (w : world E),
    affirmative (stdin w) = false ->
    exists w',
      cleanup_test_data_keycloak.main E CONFIG w = (Raise (SystemExit 0), w')
      /\ sent w' = sent w
      /\ srv w' = srv w
      /\ exit_code (fst (cleanup_test_data_keycloak.main E CONFIG w)) = 0.
Proof.
  intros E CONFIG w Hneg.
  destruct (confirm_deletion_run E w) as (w' & Hc & Hs & Hv).
  exists w'.
  assert (Hm : cleanup_test_data_keycloak.main E CONFIG w
               = (Raise (SystemExit 0), w')).
  { unfold cleanup_test_data_keycloak.main.
    unfold bind at 1. rewrite Hc, Hneg. reflexivity. }
  rewrite Hm. auto.
Qed.

(** Witness for C9: the operator interrupts the prompt. *)
Lemma C9_cleanup_aborts_without_confirmation_witness :
  exists w',
    cleanup_test_data_keycloak.main scripted sample_cleanup_config
      (scripted_world [Failure] [Interrupt]) = (Raise (SystemExit 0), w')
    /\ sent w' = []
    /\ srv w' = [Failure]
    /\ exit_code (fst (cleanup_test_data_keycloak.main scripted
                         sample_cleanup_config
                         (scripted_world [Failure] [Interrupt]))) = 0.
Proof.
  exact (C9_cleanup_aborts_without_confirmation scripted sample_cleanup_config
           (scripted_world [Failure] [Interrupt]) eq_refl).
Defined.

(** ** Authentication *)

Ltac token_cases r :=
  unfold token_outcome; run_py;
  destruct ((400 <=? status_code r) && (status_code r <? 600)); cbn;
  [ reflexivity
  | destruct (json_body r) as [[| | | | |d]|]; cbn;
    try reflexivity;
    [ destruct (truthy (dict_get d "access_token" JNull)); reflexivity
    | destruct (json_error_is_request_exception _); reflexivity ] ].

Lemma keycloak_token_run E config (w : world E) r :
  answer w (Requests.keycloak_token config) = Response r ->
  KeycloakProvider.get_admin_token E config w
    = (token_outcome E r, after w (Requests.keycloak_token config)).
Proof.
  unfold KeycloakProvider.get_admin_token, Requests.keycloak_token, token_url.
  intros H. run_py.
  match type of H with
  | snd (handle E (srv w) ?rq) = _ => destruct (handle E (srv w) rq) as [s' rp]
  end.
  cbn in H. subst rp. cbn [fst snd].
  token_cases r.
Qed.

Lemma ferriskey_token_fields_eq config cid :
  Requests.ferriskey_token_fields config cid =
    match admin_client_secret config with
    | Some sec =>
        if negb (sec =? "")%string
        then ([("grant_type", "password"); ("client_id", cid);
               ("username", admin_username config);
               ("password", admin_password config)]
              ++ [("client_secret", sec)])%list
        else [("grant_type", "password"); ("client_id", cid);
              ("username", admin_username config);
              ("password", admin_password config)]
    | None => [("grant_type", "password"); ("client_id", cid);
               ("username", admin_username config);
               ("password", admin_password config)]
    end.
Proof.
  unfold Requests.ferriskey_token_fields, opt_truthy.
  destruct (admin_client_secret config) as [sec|]; [|reflexivity].
  destruct (sec =? "")%string; reflexivity.
Qed.

Lemma ferriskey_token_run E config (w : world E) cid r :
  admin_client_id config = Some cid ->
  cid <> "" ->
  answer w (Requests.ferriskey_token config cid) = Response r ->
  FerrisKeyProvider.get_admin_token E config w
    = (token_outcome E r, after w (Requests.ferriskey_token config cid)).
Proof.
  intros Hc Hne H.
  unfold FerrisKeyProvider.get_admin_token. rewrite Hc.
  destruct (String.eqb_spec cid "") as [->|_]; [contradiction|].
  unfold Requests.ferriskey_token, token_url in *.
  rewrite ferriskey_token_fields_eq in *.
  run_py.
  match type of H with
  | snd (handle E (srv w) ?rq) = _ => destruct (handle E (srv w) rq) as [s' rp]
  end.
  cbn in H. subst rp. cbn [fst snd].
  token_cases r.
Qed.

Lemma token_outcome_cases E r j :
  200 <= status_code r < 300 ->
  json_body r = Some j ->
  token_outcome E r =
    match access_token_of j with
    | Some tok => Ret tok
    | None => match j with JObj _ => Raise (SystemExit 1) | _ => Raise AttributeError end
    end.
Proof.
  intros Hs Hj. unfold token_outcome, access_token_of. rewrite Hj.
  replace ((400 <=? status_code r) && (status_code r <? 600)) with false
    by (symmetry; apply andb_false_iff; left; apply Z.leb_gt; lia).
  destruct j as [| | | | |d]; try reflexivity.
  cbn. destruct (truthy (dict_get d "access_token" JNull)); reflexivity.
Qed.

Lemma token_or_fatal_intro E (m : M E json) (w : world E) rq r j :
  200 <= status_code r < 300 ->
  json_body r = Some j ->
  m w = (token_outcome E r, after w rq) ->
  token_or_fatal m w rq j.
Proof.
  intros Hs Hj Hm. unfold token_or_fatal.
  rewrite (token_outcome_cases E r j Hs Hj) in Hm.
  destruct (access_token_of j) as [tok|]; [exact Hm|].
  exists (match j with JObj _ => SystemExit 1 | _ => AttributeError end).
  split; [destruct j; auto|].
  split; [destruct j; exact Hm|].
  intros A rest. unfold bind. rewrite Hm. destruct j; reflexivity.
Qed.

(** C1: when the token endpoint answers with a 2xx status and a JSON body,
    either backend's [get_admin_token] returns exactly the body's
    [access_token] when there is one, and otherwise ends the run (through
    [sys.exit(1)], or through an uncaught [AttributeError] when the body is
    not an object): nothing sequenced after the call is executed, so the
    token request is the only request issued. *)
Theorem C1_authenticate_token_or_fatal :
  forall (E : environment) (config : Config) (w : world E)
         (r : response) (j : json),
    200 <= status_code r < 300 ->
    json_body r = Some j ->
    (answer w (Requests.keycloak_token config) = Response r ->
     token_or_fatal (KeycloakProvider.get_admin_token E config) w
       (Requests.keycloak_token config) j)
    /\ (forall cid,
          admin_client_id config = Some cid ->
          cid <> "" ->
          answer w (Requests.ferriskey_token config cid) = Response r ->
          token_or_fatal (FerrisKeyProvider.get_admin_token E config) w
            (Requests.ferriskey_token config cid) j).
Proof.
  intros E config w r j Hs Hj. split.
  - intros H. eapply token_or_fatal_intro; eauto using keycloak_token_run.
  - intros cid Hc Hne H.
    eapply token_or_fatal_intro; eauto using ferriskey_token_run.
Qed.

(** Witness for C1: a 200 reply whose body has no [access_token], on
    Backend B. *)
Lemma C1_authenticate_token_or_fatal_witness :
  let r := json_response 200 (JObj [("error", JStr "nope")]) in
  let w := scripted_world [Response r] [] in
  token_or_fatal (FerrisKeyProvider.get_admin_token scripted sample_config) w
    (Requests.ferriskey_token sample_config "admin-client")
    (JObj [("error", JStr "nope")]).
Proof.
  intros r w.
  refine (proj2 (C1_authenticate_token_or_fatal scripted sample_config w r
                   (JObj [("error", JStr "nope")]) _ eq_refl)
            "admin-client" eq_refl _ eq_refl).
  - cbn. lia.
  - discriminate.
Defined.

(** [load_config] never yields an empty optional setting, so for a loaded
    configuration "set" and "truthy" coincide. *)
Lemma optional_setting_truthy (env_value : option string) :
  opt_truthy (optional_setting env_value) = true
  <-> optional_setting env_value <> None.
Proof.
  unfold optional_setting.
  destruct (strip match env_value with Some s => s | None => "" end =? "")%string
    eqn:Hs; cbn; [|rewrite Hs; cbn]; split; congruence.
Qed.

Lemma ferriskey_token_sends E config (w : world E) cid :
  admin_client_id config = Some cid ->
  cid <> "" ->
  snd (FerrisKeyProvider.get_admin_token E config w)
    = after w (Requests.ferriskey_token config cid).
Proof.
  intros Hc Hne.
  destruct (answer w (Requests.ferriskey_token config cid)) as [r|] eqn:Ha.
  - rewrite (ferriskey_token_run E config w cid r Hc Hne Ha). reflexivity.
  - unfold FerrisKeyProvider.get_admin_token. rewrite Hc.
    destruct (String.eqb_spec cid "") as [->|_]; [contradiction|].
    unfold Requests.ferriskey_token, token_url in *.
    rewrite ferriskey_token_fields_eq in *.
    run_py.
    match type of Ha with
    | snd (handle E (srv w) ?rq) = _ => destruct (handle E (srv w) rq) as [s' rp]
    end.
    cbn in Ha. subst rp. reflexivity.
Qed.

Lemma ferriskey_token_fields_secret config cid :
  (In "client_secret" (map fst (Requests.ferriskey_token_fields config cid))
   <-> opt_truthy (admin_client_secret config) = true)
  /\ (forall sec,
        In ("client_secret", sec) (Requests.ferriskey_token_fields config cid) ->
        admin_client_secret config = Some sec).
Proof.
  unfold Requests.ferriskey_token_fields, opt_truthy.
  destruct (admin_client_secret config) as [sec|];
    [destruct (sec =? "")%string|]; cbn; split;
    try (split; [intros [H|[H|[H|[H|[H|[]]]]]]; try discriminate H; reflexivity
                | intros _; tauto]);
    try (split; [intros [H|[H|[H|[H|[]]]]]; discriminate H
                | intros H; discriminate H]);
    intros s H;
    repeat (destruct H as [H|H]; [try discriminate H|]);
    try contradiction; congruence.
Qed.

(** C8: Backend B's [get_admin_token] exits with status 1 without issuing
    any request when no administrative client identifier is configured;
    otherwise the one request it issues is the token request, whose form
    carries the client identifier, the admin username and the admin
    password, and a [client_secret] field exactly when an administrative
    client secret is configured (and then that very secret). *)
Theorem C8_ferriskey_token_request :
  forall (E : environment) (config : Config) (w : world E),
    (opt_truthy (admin_client_id config) = false ->
     FerrisKeyProvider.get_admin_token E config w = (Raise (SystemExit 1), w))
    /\ (forall cid,
          admin_client_id config = Some cid ->
          cid <> "" ->
          let rq := Requests.ferriskey_token config cid in
          let fields := Requests.ferriskey_token_fields config cid in
          snd (FerrisKeyProvider.get_admin_token E config w) = after w rq
          /\ rq_body rq = FormBody fields
          /\ In ("grant_type", "password") fields
          /\ In ("client_id", cid) fields
          /\ In ("username", admin_username config) fields
          /\ In ("password", admin_password config) fields
          /\ (In "client_secret" (map fst fields)
              <-> opt_truthy (admin_client_secret config) = true)
          /\ (forall sec, In ("client_secret", sec) fields ->
                          admin_client_secret config = Some sec)).
Proof.
  intros E config w. split.
  - unfold FerrisKeyProvider.get_admin_token, opt_truthy.
    destruct (admin_client_id config) as [cid|]; [|reflexivity].
    destruct (cid =? "")%string; [reflexivity | discriminate].
  - intros cid Hc Hne rq fields.
    split; [apply ferriskey_token_sends; assumption|].
    split; [reflexivity|].
    subst fields. unfold Requests.ferriskey_token_fields at 1 2 3 4.
    repeat (split; [cbn; tauto|]).
    apply ferriskey_token_fields_secret.
Qed.

(** Witness for C8: an unset [ADMIN_CLIENT_ID], and a configured one. *)
Lemma C8_ferriskey_token_request_witness :
  let config :=
    mkConfig "ferriskey" "http://localhost:3333" 30 "admin" "admin" "master"
      None (Some "s3cret") "admin-cli" "perf-realm" "perf-client" None 50
      "perf-password" "perf-user-" "Perf" "User" "perf" "test.local" in
  let w := scripted_world
             [Response (json_response 200 (JObj [("access_token", JStr "t")]))] [] in
  FerrisKeyProvider.get_admin_token scripted config w = (Raise (SystemExit 1), w)
  /\ snd (FerrisKeyProvider.get_admin_token scripted sample_config w)
     = after w (Requests.ferriskey_token sample_config "admin-client").
Proof.
  intros config w. split.
  - exact (proj1 (C8_ferriskey_token_request scripted config w) eq_refl).
  - refine (proj1 (proj2 (C8_ferriskey_token_request scripted sample_config w)
                     "admin-client" eq_refl _)).
    discriminate.
Defined.

(** ** Backend B: clients *)

Lemma ferriskey_create_client_sends E config token realm client_data (w : world E) :
  exists v,
    FerrisKeyProvider.create_client E config token realm client_data w
      = (Ret v, after w (Requests.ferriskey_create_client E config token realm
                           client_data)).
Proof.
  unfold FerrisKeyProvider.create_client, Requests.ferriskey_create_client.
  run_py.
  match goal with |- context [handle E (srv w) ?rq] => case_reply w rq end;
    [|cbn; eauto].
  destruct (in_ (status_code r) [200; 201]).
  - destruct (json_body r) as [[| | | | |d]|]; cbn; eauto.
    destruct (dict_get d "data" (JObj [])) as [| | | | |inner]; cbn; eauto.
    destruct (truthy (dict_get inner "id" JNull)); cbn; eauto.
  - destruct (in_ (status_code r) [400; 409]); cbn; eauto.
Qed.

Lemma ferriskey_create_client_exists E config token realm client_data
  (w : world E) r :
  answer w (Requests.ferriskey_create_client E config token realm client_data)
    = Response r ->
  in_ (status_code r) [400; 409] = true ->
  FerrisKeyProvider.create_client E config token realm client_data w
    = (Ret JNull, after w (Requests.ferriskey_create_client E config token realm
                             client_data)).
Proof.
  unfold FerrisKeyProvider.create_client, Requests.ferriskey_create_client.
  intros H Hs. run_py.
  match type of H with
  | snd (handle E (srv w) ?rq) = _ => destruct (handle E (srv w) rq) as [s' rp]
  end.
  cbn in H. subst rp. cbn [fst snd].
  rewrite !in_cons in *.
  destruct (status_code r =? 400) eqn:E4.
  - apply Z.eqb_eq in E4. rewrite E4. reflexivity.
  - destruct (status_code r =? 409) eqn:E9; [|discriminate Hs].
    apply Z.eqb_eq in E9. rewrite E9. reflexivity.
Qed.

Lemma ferriskey_get_client_secret_run E config token realm uuid (w : world E) r d :
  answer w (Requests.ferriskey_get_client E config token realm uuid) = Response r ->
  status_code r = 200 ->
  json_body r = Some (JObj d) ->
  data_member_ok d = true ->
  FerrisKeyProvider.get_client_secret E config token realm uuid w
    = (Ret (nested_or_top "secret" d),
       after w (Requests.ferriskey_get_client E config token realm uuid)).
Proof.
  unfold FerrisKeyProvider.get_client_secret, Requests.ferriskey_get_client.
  intros H Hs Hj Hd. run_py.
  match type of H with
  | snd (handle E (srv w) ?rq) = _ => destruct (handle E (srv w) rq) as [s' rp]
  end.
  cbn in H. subst rp. cbn [fst snd].
  rewrite Hs, Hj. cbn.
  unfold nested_or_top, data_member_ok, dict_get in *.
  destruct (lookup "data" d) as [[| | | | |inner]|]; try discriminate Hd; cbn.
  - destruct (truthy match lookup "secret" inner with
                     | Some v => v | None => JNull end); reflexivity.
  - reflexivity.
Qed.

(** C4: Backend B's [create_default_client] posts a descriptor without any
    secret member, whatever the configuration.  When [create_client] yields
    a (truthy) UUID, the pair returned is that UUID with whatever
    [get_client_secret] yields for it, and that call, answered with 200 and
    an object, yields [data.secret] when present and the top-level [secret]
    otherwise.  When [create_client] yields no UUID the result is
    [(None, None)] and nothing more is requested. *)
Theorem C4_ferriskey_default_client_secret :
  forall (E : environment) (config : Config) (token : json) (realm : string)
         (w : world E),
    let create :=
      Requests.ferriskey_create_client E config token realm
        (FerrisKeyProvider.default_client_data config) in
    (rq_body create = JsonBody (JObj (FerrisKeyProvider.default_client_data config))
     /\ lookup "client_secret" (FerrisKeyProvider.default_client_data config) = None
     /\ lookup "secret" (FerrisKeyProvider.default_client_data config) = None)
    /\ (exists uuid,
          FerrisKeyProvider.create_client E config token realm
            (FerrisKeyProvider.default_client_data config) w
          = (Ret uuid, after w create)
          /\ FerrisKeyProvider.create_default_client E config token realm w
             = if truthy uuid then
                 (match fst (FerrisKeyProvider.get_client_secret E config token
                               realm uuid (after w create)) with
                  | Ret secret => Ret (uuid, secret)
                  | Raise e => Raise e
                  end,
                  snd (FerrisKeyProvider.get_client_secret E config token realm
                         uuid (after w create)))
               else (Ret (JNull, JNull), after w create))
    /\ (forall uuid w1 r d,
          answer w1 (Requests.ferriskey_get_client E config token realm uuid)
            = Response r ->
          status_code r = 200 ->
          json_body r = Some (JObj d) ->
          data_member_ok d = true ->
          FerrisKeyProvider.get_client_secret E config token realm uuid w1
            = (Ret (nested_or_top "secret" d),
               after w1 (Requests.ferriskey_get_client E config token realm uuid))).
Proof.
  intros E config token realm w create.
  split; [repeat split|].
  split.
  - destruct (ferriskey_create_client_sends E config token realm
                (FerrisKeyProvider.default_client_data config) w) as [uuid Hc].
    exists uuid. split; [exact Hc|].
    unfold FerrisKeyProvider.create_default_client.
    unfold bind at 1. rewrite Hc. fold create.
    destruct (truthy uuid); cbn [negb]; [|reflexivity].
    unfold bind, ret.
    destruct (FerrisKeyProvider.get_client_secret E config token realm uuid
                (after w create)) as [[s|e] w2]; reflexivity.
  - intros uuid w1 r d. apply ferriskey_get_client_secret_run.
Qed.

(** Witness for C4: the server answers the creation with an id and the
    fetch with a nested and a top-level secret. *)
Lemma C4_ferriskey_default_client_secret_witness :
  let fetched :=
    JObj [("data", JObj [("id", JStr "u-1"); ("secret", JStr "nested")]);
          ("secret", JStr "top")] in
  let w := scripted_world
             [Response (json_response 201 (JObj [("data", JObj [("id", JStr "u-1")])]));
              Response (json_response 200 fetched)] [] in
  fst (FerrisKeyProvider.get_client_secret scripted sample_config (JStr "tok")
         "perf-realm" (JStr "u-1")
         (after w (Requests.ferriskey_create_client scripted sample_config
                     (JStr "tok") "perf-realm"
                     (FerrisKeyProvider.default_client_data sample_config))))
    = Ret (JStr "nested").
Proof.
  intros fetched w.
  destruct (C4_ferriskey_default_client_secret scripted sample_config
              (JStr "tok") "perf-realm" w) as (_ & _ & H).
  rewrite (H (JStr "u-1")
             (after w (Requests.ferriskey_create_client scripted sample_config
                         (JStr "tok") "perf-realm"
                         (FerrisKeyProvider.default_client_data sample_config)))
             (json_response 200 fetched)
             [("data", JObj [("id", JStr "u-1"); ("secret", JStr "nested")]);
              ("secret", JStr "top")] eq_refl eq_refl eq_refl eq_refl).
  reflexivity.
Defined.

(** C10: on status 400 or 409 Backend B's [create_client] returns [None]
    and the creation request is the only request issued (no look-up of the
    existing client); [create_default_client] then returns [(None, None)]
    without asking for a secret. *)
Theorem C10_ferriskey_existing_client_unrecovered :
  forall (E : environment) (config : Config) (token : json) (realm : string)
         (w : world E) (r : response),
    in_ (status_code r) [400; 409] = true ->
    (forall client_data,
       let rq := Requests.ferriskey_create_client E config token realm
                   client_data in
       answer w rq = Response r ->
       FerrisKeyProvider.create_client E config token realm client_data w
         = (Ret JNull, after w rq)
       /\ sent (after w rq) = (sent w ++ [rq])%list)
    /\ (let rq := Requests.ferriskey_create_client E config token realm
                    (FerrisKeyProvider.default_client_data config) in
        answer w rq = Response r ->
        FerrisKeyProvider.create_default_client E config token realm w
          = (Ret (JNull, JNull), after w rq)
        /\ sent (after w rq) = (sent w ++ [rq])%list).
Proof.
  intros E config token realm w r Hs. split.
  - intros client_data rq H. split; [|reflexivity].
    apply (ferriskey_create_client_exists E config token realm client_data w r H Hs).
  - intros rq H. split; [|reflexivity].
    unfold FerrisKeyProvider.create_default_client.
    unfold bind at 1.
    rewrite (ferriskey_create_client_exists E config token realm _ w r H Hs).
    reflexivity.
Qed.

(** Witness for C10: the default client already exists (409). *)
Lemma C10_ferriskey_existing_client_unrecovered_witness :
  let w := scripted_world [Response (mkResponse 409 [] "conflict" None)] [] in
  fst (FerrisKeyProvider.create_default_client scripted sample_config
         (JStr "tok") "perf-realm" w) = Ret (JNull, JNull)
  /\ List.length (sent (snd (FerrisKeyProvider.create_default_client scripted
                          sample_config (JStr "tok") "perf-realm" w))) = 1%nat.
Proof.
  intros w.
  destruct (proj2 (C10_ferriskey_existing_client_unrecovered scripted
                     sample_config (JStr "tok") "perf-realm" w
                     (mkResponse 409 [] "conflict" None) eq_refl) eq_refl)
    as [H _].
  rewrite H. split; reflexivity.
Defined.

(** ** Backend A: clients *)

Lemma split_nonempty sep s : split sep s <> [].
Proof.
  destruct s as [|c r]; cbn; [discriminate|].
  destruct (Ascii.eqb c sep); [discriminate|].
  destruct (split sep r); discriminate.
Qed.

Lemma split_no_separator sep s :
  has_char sep s = false -> split sep s = [s].
Proof.
  induction s as [|c r IH]; cbn; [reflexivity|].
  intros H. apply orb_false_iff in H. destruct H as [Hc Hr].
  rewrite Hc, (IH Hr). reflexivity.
Qed.

Lemma split_at_separator sep pre rest :
  exists l, l <> [] /\
    split sep (pre ++ String sep rest) = (l ++ split sep rest)%list.
Proof.
  induction pre as [|c pre IH]; cbn.
  - rewrite Ascii.eqb_refl. exists [EmptyString]. split; [discriminate|reflexivity].
  - destruct IH as (l & Hl & IH). rewrite IH.
    destruct (Ascii.eqb c sep).
    + exists (EmptyString :: l). split; [discriminate|reflexivity].
    + destruct l as [|h t]; [contradiction|].
      exists (String c h :: t). split; [discriminate|reflexivity].
Qed.

Lemma last_app_nonempty (l m : list string) d :
  m <> [] -> List.last (l ++ m) d = List.last m d.
Proof.
  intros Hm. induction l as [|a l IH]; [reflexivity|].
  cbn. destruct (l ++ m)%list eqn:Heq; [|exact IH].
  destruct l; [contradiction | discriminate].
Qed.

Lemma last_segment pre seg :
  has_char "/" seg = false ->
  last_item (split "/" (pre ++ String "/" seg)) = seg.
Proof.
  intros H. destruct (split_at_separator "/" pre seg) as (l & _ & ->).
  unfold last_item. rewrite last_app_nonempty by apply split_nonempty.
  rewrite (split_no_separator _ _ H). reflexivity.
Qed.

Lemma keycloak_get_client_uuid_no_request_exception E config token realm
  client_id (w : world E) e w' :
  KeycloakProvider._get_client_uuid E config token realm client_id w
    = (Raise e, w') ->
  is_RequestException E e = false.
Proof.
  unfold KeycloakProvider._get_client_uuid. run_py.
  match goal with |- context [handle E (srv w) ?rq] => case_reply w rq end;
    [|cbn; discriminate].
  destruct (status_code r =? 200); [|cbn; discriminate].
  destruct (json_body r) as [j|]; cbn.
  - destruct (truthy j); [|cbn; discriminate].
    destruct j as [| | | [|c s]|[|[| | | | |o] rest]|]; cbn;
      intros H; inversion H; reflexivity.
  - destruct (json_error_is_request_exception E) eqn:Hj; cbn; rewrite ?Hj;
      intros H; inversion H; subst; cbn; exact Hj.
Qed.

Lemma keycloak_create_client_conflict E config token realm client_data
  (w : world E) r :
  answer w (Requests.keycloak_create_client E config token realm client_data)
    = Response r ->
  status_code r = 409 ->
  KeycloakProvider.create_client E config token realm client_data w
    = KeycloakProvider._get_client_uuid E config token realm
        (dict_get client_data "client_id" (JStr "unknown"))
        (after w (Requests.keycloak_create_client E config token realm
                    client_data)).
Proof.
  intros H Hs.
  unfold KeycloakProvider.create_client, Requests.keycloak_create_client in *.
  unfold try_except at 1. unfold bind at 1. unfold http at 1.
  unfold answer, after in *.
  match type of H with
  | snd (handle E (srv w) ?rq) = _ => destruct (handle E (srv w) rq) as [s' rp]
  end.
  cbn in H. subst rp. cbn [fst snd]. rewrite Hs. cbn [in_ existsb Z.eqb orb].
  cbn -[KeycloakProvider._get_client_uuid].
  match goal with
  | |- context [KeycloakProvider._get_client_uuid ?a ?b ?c ?d ?e ?f] =>
      destruct (KeycloakProvider._get_client_uuid a b c d e f)
        as [[v|e'] w'] eqn:Hr
  end; [reflexivity|].
  rewrite (keycloak_get_client_uuid_no_request_exception _ _ _ _ _ _ _ _ Hr).
  reflexivity.
Qed.

Lemma keycloak_create_client_created E config token realm client_data
  (w : world E) r :
  answer w (Requests.keycloak_create_client E config token realm client_data)
    = Response r ->
  in_ (status_code r) [200; 201; 204] = true ->
  KeycloakProvider.create_client E config token realm client_data w
    = (Ret (location_uuid r),
       after w (Requests.keycloak_create_client E config token realm client_data)).
Proof.
  intros H Hs.
  unfold KeycloakProvider.create_client, Requests.keycloak_create_client in *.
  run_py.
  match type of H with
  | snd (handle E (srv w) ?rq) = _ => destruct (handle E (srv w) rq) as [s' rp]
  end.
  cbn in H. subst rp. cbn [fst snd]. rewrite Hs.
  unfold location_uuid.
  destruct (header_get "Location" (headers r) =? "")%string; reflexivity.
Qed.

Lemma keycloak_get_client_uuid_cases E config token realm client_id (w : world E) :
  let rq := Requests.keycloak_list_clients E config token realm client_id in
  match answer w rq with
  | Failure =>
      KeycloakProvider._get_client_uuid E config token realm client_id w
        = (Ret JNull, after w rq)
  | Response r =>
      (status_code r <> 200 ->
       KeycloakProvider._get_client_uuid E config token realm client_id w
         = (Ret JNull, after w rq))
      /\ (forall j,
            status_code r = 200 -> json_body r = Some j -> truthy j = false ->
            KeycloakProvider._get_client_uuid E config token realm client_id w
              = (Ret JNull, after w rq))
      /\ (forall o rest,
            status_code r = 200 ->
            json_body r = Some (JArr (JObj o :: rest)) ->
            KeycloakProvider._get_client_uuid E config token realm client_id w
              = (Ret (dict_get o "id" JNull), after w rq))
  end.
Proof.
  intros rq. subst rq.
  unfold KeycloakProvider._get_client_uuid, Requests.keycloak_list_clients.
  run_py.
  match goal with |- context [handle E (srv w) ?rq] => case_reply w rq end;
    [|reflexivity].
  split; [|split].
  - intros Hs. apply Z.eqb_neq in Hs. rewrite Hs. reflexivity.
  - intros j Hs Hj Ht. rewrite Hs, Hj. cbn. rewrite Ht. reflexivity.
  - intros o rest Hs Hj. rewrite Hs, Hj. reflexivity.
Qed.

(** C6 (as stated, refuted): a 202 reply is a 2xx reply, yet
    [create_client] does not read its [Location] header; it returns
    [None]. *)
Lemma C6_counterexample :
  ~ (forall (E : environment) (config : Config) (token : json)
            (realm : string) (client_data : dict) (w : world E) (r : response),
        answer w (Requests.keycloak_create_client E config token realm
                    client_data) = Response r ->
        200 <= status_code r < 300 ->
        fst (KeycloakProvider.create_client E config token realm client_data w)
          = Ret (location_uuid r)).
Proof.
  intro H.
  pose (r := mkResponse 202
               [("Location", "http://localhost:8080/admin/realms/perf/clients/c0ffee")]
               "" None).
  specialize (H scripted sample_config (JStr "tok") "perf"
                [("client_id", JStr "perf-client")]
                (scripted_world [Response r] []) r eq_refl).
  assert (Hs : 200 <= status_code r < 300) by (cbn; lia).
  specialize (H Hs). vm_compute in H. discriminate H.
Qed.

(** C6 (amended): for Backend A's [create_client], a reply with status 200,
    201 or 204 yields the final path segment of the [Location] header
    ([None] when the header is absent or empty); a reply with status 409
    yields whatever the secondary look-up yields, which lists the realm's
    clients filtered by the client identifier and returns the first
    element's [id], and [None] when the list is empty, when the look-up is
    answered with a status other than 200, or when it fails in transport. *)
Theorem C6_keycloak_client_uuid :
  forall (E : environment) (config : Config) (token : json) (realm : string)
         (client_data : dict) (w : world E) (r : response),
    let create :=
      Requests.keycloak_create_client E config token realm client_data in
    let client_id := dict_get client_data "client_id" (JStr "unknown") in
    let find := Requests.keycloak_list_clients E config token realm client_id in
    let find_uuid :=
      KeycloakProvider._get_client_uuid E config token realm client_id in
    answer w create = Response r ->
    (in_ (status_code r) [200; 201; 204] = true ->
     KeycloakProvider.create_client E config token realm client_data w
       = (Ret (location_uuid r), after w create)
     /\ (forall pre seg,
           has_char "/" seg = false ->
           header_get "Location" (headers r) = pre ++ String "/" seg ->
           location_uuid r = JStr seg)
     /\ (header_get "Location" (headers r) = "" -> location_uuid r = JNull))
    /\ (status_code r = 409 ->
        KeycloakProvider.create_client E config token realm client_data w
          = find_uuid (after w create)
        /\ rq_params find = [("clientId", client_id)]
        /\ match answer (after w create) find with
           | Failure =>
               find_uuid (after w create)
                 = (Ret JNull, after (after w create) find)
           | Response r2 =>
               (status_code r2 <> 200 ->
                find_uuid (after w create)
                  = (Ret JNull, after (after w create) find))
               /\ (forall j,
                     status_code r2 = 200 -> json_body r2 = Some j ->
                     truthy j = false ->
                     find_uuid (after w create)
                       = (Ret JNull, after (after w create) find))
               /\ (forall o rest,
                     status_code r2 = 200 ->
                     json_body r2 = Some (JArr (JObj o :: rest)) ->
                     find_uuid (after w create)
                       = (Ret (dict_get o "id" JNull),
                          after (after w create) find))
           end).
Proof.
  intros E config token realm client_data w r create client_id find find_uuid H.
  split.
  - intros Hs. split; [|split].
    + apply keycloak_create_client_created; assumption.
    + intros pre seg Hseg Hloc. unfold location_uuid. rewrite Hloc.
      rewrite last_segment by assumption.
      destruct pre; reflexivity.
    + intros Hloc. unfold location_uuid. rewrite Hloc. reflexivity.
  - intros Hs. split; [|split].
    + apply keycloak_create_client_conflict with (r := r); assumption.
    + reflexivity.
    + apply keycloak_get_client_uuid_cases.
Qed.

(** Witness for C6: the client exists (409) and the look-up finds it. *)
Lemma C6_keycloak_client_uuid_witness :
  let found := JArr [JObj [("id", JStr "c0ffee"); ("clientId", JStr "perf-client")]] in
  let w := scripted_world [Response (mkResponse 409 [] "" None);
                           Response (json_response 200 found)] [] in
  fst (KeycloakProvider.create_client scripted sample_config (JStr "tok") "perf"
         [("client_id", JStr "perf-client")] w) = Ret (JStr "c0ffee").
Proof.
  intros found w.
  destruct (C6_keycloak_client_uuid scripted sample_config (JStr "tok") "perf"
              [("client_id", JStr "perf-client")] w
              (mkResponse 409 [] "" None) eq_refl) as [_ H].
  destruct (H eq_refl) as (Hc & _ & Hf).
  rewrite Hc.
  destruct Hf as (_ & _ & Hf).
  rewrite (Hf [("id", JStr "c0ffee"); ("clientId", JStr "perf-client")] []
              eq_refl eq_refl).
  reflexivity.
Defined.

(** ** Generated user names *)

Lemma digits_value n : decimal_value (digits n) = Some n.
Proof.
  unfold decimal_value, digits, NilZero.string_of_uint.
  destruct (N.to_uint n) eqn:Hn;
    try (rewrite <- Hn, NilEmpty.usu; cbn; f_equal; apply DecimalN.Unsigned.of_to).
  destruct n as [|p]; [discriminate Hn|].
  exfalso. exact (DecimalPos.Unsigned.to_uint_nonnil p Hn).
Qed.

Lemma zeros_value k s : decimal_value (zeros k ++ s) = decimal_value s.
Proof.
  induction k as [|k IH]; [reflexivity|].
  cbn [zeros append]. unfold decimal_value in *. cbn.
  destruct (NilEmpty.uint_of_string (zeros k ++ s)) as [d|];
    destruct (NilEmpty.uint_of_string s) as [d'|]; cbn in *;
    try discriminate IH; [|reflexivity].
  exact IH.
Qed.

Lemma zeros_length k s :
  String.length (zeros k ++ s) = (k + String.length s)%nat.
Proof. induction k as [|k IH]; cbn; [reflexivity|]. now rewrite IH. Qed.

Lemma format_03d_nonneg i :
  0 <= i -> format_03d i = zfill 3 (digits (Z.to_N i)).
Proof.
  intros H. unfold format_03d.
  destruct (Z.ltb_spec i 0); [lia | reflexivity].
Qed.

Lemma format_03d_value i :
  0 <= i -> decimal_value (format_03d i) = Some (Z.to_N i).
Proof.
  intros H. rewrite (format_03d_nonneg i H). unfold zfill.
  rewrite zeros_value. apply digits_value.
Qed.

Lemma format_03d_inj i j :
  0 <= i -> 0 <= j -> format_03d i = format_03d j -> i = j.
Proof.
  intros Hi Hj Heq.
  assert (H : Some (Z.to_N i) = Some (Z.to_N j))
    by (rewrite <- !format_03d_value by assumption; now rewrite Heq).
  injection H as H. apply Z2N.inj in H; assumption.
Qed.

(** C5: for every count [N] and index [i] in [1, N], the user name is the
    prefix followed by [i] in decimal, padded on the left with zeros to
    three characters (and not padded at all once [i] has three digits or
    more); the padded text reads back as [i]; and two indices in range with
    the same user name are equal.  Index 7 gives [perf-user-007]. *)
Theorem C5_username_zero_padded_injective :
  forall (N i : Z),
    1 <= i <= N ->
    seed_test_data.username i = "perf-user-" ++ format_03d i
    /\ (exists k, format_03d i = zeros k ++ digits (Z.to_N i))
    /\ String.length (format_03d i)
       = Nat.max 3 (String.length (digits (Z.to_N i)))
    /\ decimal_value (format_03d i) = Some (Z.to_N i)
    /\ seed_test_data.username 7 = "perf-user-007"
    /\ (forall j,
          1 <= j <= N ->
          seed_test_data.username i = seed_test_data.username j -> i = j).
Proof.
  intros N i Hi.
  assert (H0 : 0 <= i) by lia.
  split; [reflexivity|].
  split; [rewrite (format_03d_nonneg i H0); unfold zfill; eauto|].
  split.
  { rewrite (format_03d_nonneg i H0). unfold zfill. rewrite zeros_length. lia. }
  split; [apply format_03d_value; assumption|].
  split; [reflexivity|].
  intros j Hj Heq. unfold seed_test_data.username in Heq.
  cbn in Heq. inversion Heq as [Hpad].
  apply format_03d_inj; [lia | lia | exact Hpad].
Qed.

(** Witness for C5: index 7 of 50. *)
Lemma C5_username_zero_padded_injective_witness :
  seed_test_data.username 7 = "perf-user-" ++ format_03d 7
  /\ decimal_value (format_03d 7) = Some 7%N.
Proof.
  assert (H : 1 <= 7 <= 50) by lia.
  destruct (C5_username_zero_padded_injective 50 7 H) as (H1 & _ & _ & H2 & _).
  split; [exact H1 | exact H2].
Defined.

(** ** The user loop of seed_test_data.py *)

Lemma create_user_well_shaped E CONFIG token realm u f l e (w : world E) :
  replies_well_shaped E ->
  exists v,
    seed_test_data.create_user E CONFIG token realm u f l e w
      = (Ret v, after w (seed_test_data.create_user_request E CONFIG token
                           realm u f l e)).
Proof.
  intros WS. unfold seed_test_data.create_user. run_py.
  match goal with |- context [handle E (srv w) ?rq] =>
    destruct (handle E (srv w) rq) as [s' [r|]] eqn:Hh end;
    cbn [fst snd]; [|cbn; eauto].
  specialize (WS _ _ _ _ Hh).
  destruct (in_ (status_code r) [200; 201]).
  - specialize (WS eq_refl).
    destruct (json_body r) as [[| | | | |d]|]; try contradiction; cbn; eauto.
    unfold data_member_ok, dict_get in *.
    destruct (lookup "data" d) as [[| | | | |inner]|]; try discriminate WS; cbn.
    + destruct (truthy match lookup "id" inner with
                       | Some v => v | None => JNull end); cbn; eauto.
    + eauto.
  - destruct (in_ (status_code r) [400; 409]); cbn; eauto.
Qed.

Lemma set_user_password_total E CONFIG token realm user_id password (w : world E) :
  exists b w',
    seed_test_data.set_user_password E CONFIG token realm user_id password w
      = (Ret b, w')
    /\ exists tr, sent w' = (sent w ++ tr)%list.
Proof.
  unfold seed_test_data.set_user_password.
  destruct (truthy user_id); cbn [negb].
  - run_py.
    match goal with |- context [handle E (srv w) ?rq] => case_reply w rq end;
      cbn; do 2 eexists; (split; [reflexivity|]); cbn [sent];
      eexists; reflexivity.
  - unfold ret. exists false, w. split; [reflexivity|].
    exists []. now rewrite app_nil_r.
Qed.

Lemma user_loop_body_counts E CONFIG token i c f (w : world E) :
  replies_well_shaped E ->
  exists c' f' w',
    seed_test_data.user_loop_body E CONFIG token i (c, f) w = (Ret (c', f'), w')
    /\ ((c' = c + 1 /\ f' = f) \/ (c' = c /\ f' = f + 1))
    /\ exists tr, sent w' = (sent w ++ user_request E CONFIG token i :: tr)%list.
Proof.
  intros WS. unfold seed_test_data.user_loop_body.
  destruct (create_user_well_shaped E CONFIG token
              (seed_test_data.perf_realm CONFIG) (seed_test_data.username i)
              "Perf" (seed_test_data.lastname i) (seed_test_data.email i) w WS)
    as [v Hv].
  unfold bind at 1. rewrite Hv.
  destruct (truthy v).
  - destruct (set_user_password_total E CONFIG token
                (seed_test_data.perf_realm CONFIG) v
                (seed_test_data.user_password CONFIG)
                (after w (seed_test_data.create_user_request E CONFIG token
                            (seed_test_data.perf_realm CONFIG)
                            (seed_test_data.username i) "Perf"
                            (seed_test_data.lastname i) (seed_test_data.email i))))
      as (b & w' & Hb & tr & Htr).
    unfold bind. rewrite Hb.
    exists (if b then c + 1 else c), (if b then f else f + 1), w'.
    split; [destruct b; reflexivity|].
    split; [destruct b; auto|].
    exists tr. rewrite Htr. unfold after, user_request. cbn [sent].
    now rewrite <- app_assoc.
  - exists c, (f + 1), (after w (user_request E CONFIG token i)).
    split; [reflexivity|]. split; [auto|].
    exists []. reflexivity.
Qed.

Lemma user_loop_counts E CONFIG token (l : list Z) :
  replies_well_shaped E ->
  forall c f (w : world E),
  exists c' f' w',
    for_in l (seed_test_data.user_loop_body E CONFIG token) (c, f) w
      = (Ret (c', f'), w')
    /\ c' + f' = c + f + Z.of_nat (List.length l)
    /\ c <= c' /\ f <= f'
    /\ exists tr, sent w' = (sent w ++ tr)%list
                  /\ forall i, In i l -> In (user_request E CONFIG token i) tr.
Proof.
  intros WS. induction l as [|i l IH]; intros c f w.
  - exists c, f, w. cbn. split; [reflexivity|].
    split; [lia|]. split; [lia|]. split; [lia|].
    exists []. split; [now rewrite app_nil_r | intros ? []].
  - destruct (user_loop_body_counts E CONFIG token i c f w WS)
      as (c1 & f1 & w1 & H1 & Hc & tr1 & Ht1).
    destruct (IH c1 f1 w1) as (c2 & f2 & w2 & H2 & Hsum & Hcm & Hfm & tr2 & Ht2 & Hin).
    exists c2, f2, w2.
    split; [cbn [for_in]; unfold bind; rewrite H1; exact H2|].
    split; [cbn [List.length]; lia|].
    split; [lia|]. split; [lia|].
    exists (user_request E CONFIG token i :: tr1 ++ tr2)%list.
    split.
    + rewrite Ht2, Ht1, <- app_assoc. reflexivity.
    + intros k [->|Hk]; [left; reflexivity|].
      right. apply in_or_app. right. apply Hin, Hk.
Qed.

Lemma py_range_length lo hi :
  Z.of_nat (List.length (py_range lo hi)) = Z.max 0 (hi - lo).
Proof.
  unfold py_range. rewrite length_map, length_seq. lia.
Qed.

Lemma py_range_In lo hi i : lo <= i < hi -> In i (py_range lo hi).
Proof.
  intros H. unfold py_range. apply in_map_iff.
  exists (Z.to_nat (i - lo)). split; [lia|].
  apply in_seq. lia.
Qed.

(** With well-shaped replies the loop does what it is meant to do: it
    ends normally, created + failed is the count, and every index in range
    had its create-user request issued. *)
Lemma create_test_users_counts E CONFIG token (w : world E) :
  replies_well_shaped E ->
  0 <= seed_test_data.user_count CONFIG ->
  exists created failed w',
    seed_test_data.create_test_users E CONFIG token w
      = (Ret (created, failed), w')
    /\ created + failed = seed_test_data.user_count CONFIG
    /\ 0 <= created /\ 0 <= failed
    /\ forall i, 1 <= i <= seed_test_data.user_count CONFIG ->
                 In (user_request E CONFIG token i) (sent w').
Proof.
  intros WS HN. unfold seed_test_data.create_test_users.
  destruct (user_loop_counts E CONFIG token
              (py_range 1 (seed_test_data.user_count CONFIG + 1)) WS 0 0 w)
    as (c & f & w' & Hrun & Hsum & Hc & Hf & tr & Htr & Hin).
  exists c, f, w'. split; [exact Hrun|].
  rewrite py_range_length in Hsum.
  split; [lia|]. split; [lia|]. split; [lia|].
  intros i Hi. rewrite Htr. apply in_or_app. right.
  apply Hin, py_range_In. lia.
Qed.

(** A server that always answers 409 is well shaped; against it, three
    users give three failures. *)
Example create_test_users_conflicts :
  exists w',
    seed_test_data.create_test_users
      (constant_server (Response (mkResponse 409 [] "" None)))
      (sample_seed_config 3) (JStr "tok")
      (mkWorld (E := constant_server (Response (mkResponse 409 [] "" None)))
         tt [] [])
    = (Ret (0, 3), w').
Proof.
  destruct (create_test_users_counts
              (constant_server (Response (mkResponse 409 [] "" None)))
              (sample_seed_config 3) (JStr "tok")
              (mkWorld (E := constant_server (Response (mkResponse 409 [] "" None)))
                 tt [] []))
    as (c & f & w' & Hrun & _).
  - intros s s' rq r H Hs. cbn in H. inversion H; subst. discriminate Hs.
  - cbn. lia.
  - exists w'. rewrite Hrun. f_equal.
    vm_compute in Hrun. inversion Hrun. reflexivity.
Qed.

(** C2 (the code at the failing input): with a count of 2, when the server
    answers the first create-user call with status 201 and the body
    [{"data": null}], [create_user] raises an [AttributeError] that neither
    of its [except] clauses catches; the loop ends there, after a single
    request, without any counter for index 1 and without any call for
    index 2.  The provider's [create_user] returns [None] on the same
    reply. *)
Theorem C2_user_loop_aborts_on_malformed_reply :
  let reply := Response (json_response 201 (JObj [("data", JNull)])) in
  let w := scripted_world [reply; reply; reply; reply] [] in
  let CONFIG := sample_seed_config 2 in
  (exists w',
     seed_test_data.create_test_users scripted CONFIG (JStr "tok") w
       = (Raise AttributeError, w')
     /\ sent w' = [user_request scripted CONFIG (JStr "tok") 1])
  /\ fst (FerrisKeyProvider.create_user scripted sample_config (JStr "tok")
            "perf-realm" "perf-user-001" "Perf" "User001" "perf001@test.local" w)
     = Ret JNull.
Proof.
  intros reply w CONFIG. split.
  - eexists. split; [vm_compute; reflexivity | reflexivity].
  - vm_compute. reflexivity.
Qed.

(** * Further properties of the code *)

(** ** seed_test_data_keycloak.py *)

Lemma keycloak_script_create_user_run E CONFIG token realm u f l e (w : world E) :
  seed_test_data_keycloak.create_user E CONFIG token realm u f l e w
    = (Ret (keycloak_id_of
              (answer w (seed_test_data_keycloak.create_user_request E CONFIG
                           token realm u f l e))),
       after w (seed_test_data_keycloak.create_user_request E CONFIG token
                  realm u f l e)).
Proof.
  unfold seed_test_data_keycloak.create_user, keycloak_id_of, location_uuid.
  run_py.
  match goal with |- context [handle E (srv w) ?rq] => case_reply w rq end;
    [|reflexivity].
  destruct (in_ (status_code r) [200; 201; 204]).
  - destruct (header_get "Location" (headers r) =? "")%string; reflexivity.
  - destruct (status_code r =? 409); reflexivity.
Qed.

Lemma keycloak_script_create_client_run E CONFIG token realm cd (w : world E) :
  seed_test_data_keycloak.create_client E CONFIG token realm cd w
    = (Ret (keycloak_id_of
              (answer w (seed_test_data_keycloak.create_client_request E CONFIG
                           token realm cd))),
       after w (seed_test_data_keycloak.create_client_request E CONFIG token
                  realm cd)).
Proof.
  unfold seed_test_data_keycloak.create_client, keycloak_id_of, location_uuid.
  run_py.
  match goal with |- context [handle E (srv w) ?rq] => case_reply w rq end;
    [|reflexivity].
  destruct (in_ (status_code r) [200; 201; 204]).
  - destruct (header_get "Location" (headers r) =? "")%string; reflexivity.
  - destruct (status_code r =? 409); reflexivity.
Qed.

Lemma keycloak_script_set_user_password_run E CONFIG token realm uid pw
  (w : world E) :
  seed_test_data_keycloak.set_user_password E CONFIG token realm uid pw w
    = if truthy uid
      then (Ret (password_set
                   (answer w (seed_test_data_keycloak.set_user_password_request
                                E CONFIG token realm uid pw))),
            after w (seed_test_data_keycloak.set_user_password_request
                       E CONFIG token realm uid pw))
      else (Ret false, w).
Proof.
  unfold seed_test_data_keycloak.set_user_password, password_set.
  destruct (truthy uid); cbn [negb]; [|reflexivity].
  run_py.
  match goal with |- context [handle E (srv w) ?rq] => case_reply w rq end;
    reflexivity.
Qed.

Lemma keycloak_script_loop_body E CONFIG token i c f (w : world E) :
  exists c' f' w' tr,
    seed_test_data_keycloak.user_loop_body E CONFIG token i (c, f) w
      = (Ret (c', f'), w')
    /\ ((c' = c + 1 /\ f' = f) \/ (c' = c /\ f' = f + 1))
    /\ issued w w' tr
    /\ filter is_post tr = [seed_test_data_keycloak.user_request E CONFIG token i]
    /\ (List.length tr <= 2)%nat.
Proof.
  unfold seed_test_data_keycloak.user_loop_body.
  unfold bind at 1. rewrite keycloak_script_create_user_run.
  fold (seed_test_data_keycloak.user_request E CONFIG token i).
  set (rq := seed_test_data_keycloak.user_request E CONFIG token i).
  set (uid := keycloak_id_of (answer w rq)).
  destruct (truthy uid) eqn:Hu.
  - unfold bind. rewrite keycloak_script_set_user_password_run, Hu.
    set (pw := seed_test_data_keycloak.set_user_password_request E CONFIG token
                 (seed_test_data_keycloak.perf_realm CONFIG) uid
                 (seed_test_data_keycloak.user_password CONFIG)).
    exists (if password_set (answer (after w rq) pw) then c + 1 else c),
           (if password_set (answer (after w rq) pw) then f else f + 1),
           (after (after w rq) pw), [rq; pw].
    split; [destruct (password_set _); reflexivity|].
    split; [destruct (password_set _); auto|].
    split; [unfold issued, after; cbn [sent]; now rewrite <- app_assoc|].
    split; [reflexivity | cbn; lia].
  - exists c, (f + 1), (after w rq), [rq].
    split; [reflexivity|]. split; [auto|].
    split; [reflexivity|]. split; [reflexivity | cbn; lia].
Qed.

Lemma keycloak_script_loop E CONFIG token (l : list Z) :
  forall c f (w : world E),
  exists c' f' w' tr,
    for_in l (seed_test_data_keycloak.user_loop_body E CONFIG token) (c, f) w
      = (Ret (c', f'), w')
    /\ c' + f' = c + f + Z.of_nat (List.length l)
    /\ c <= c' /\ f <= f'
    /\ issued w w' tr
    /\ filter is_post tr
       = map (seed_test_data_keycloak.user_request E CONFIG token) l
    /\ (List.length tr <= 2 * List.length l)%nat.
Proof.
  induction l as [|i l IH]; intros c f w.
  - exists c, f, w, []. cbn. split; [reflexivity|].
    split; [lia|]. split; [lia|]. split; [lia|].
    split; [unfold issued; now rewrite app_nil_r|]. split; [reflexivity|lia].
  - destruct (keycloak_script_loop_body E CONFIG token i c f w)
      as (c1 & f1 & w1 & tr1 & H1 & Hc & Ht1 & Hp1 & Hl1).
    destruct (IH c1 f1 w1)
      as (c2 & f2 & w2 & tr2 & H2 & Hsum & Hcm & Hfm & Ht2 & Hp2 & Hl2).
    exists c2, f2, w2, (tr1 ++ tr2)%list.
    split; [cbn [for_in]; unfold bind; rewrite H1; exact H2|].
    split; [cbn [List.length]; lia|].
    split; [lia|]. split; [lia|].
    split; [unfold issued in *; rewrite Ht2, Ht1, <- app_assoc; reflexivity|].
    split.
    + rewrite filter_app, Hp1, Hp2. reflexivity.
    + rewrite length_app. cbn [List.length]. lia.
Qed.

Lemma keycloak_script_users_total :
  forall (E : environment) (CONFIG : seed_test_data_keycloak.CONFIG_t)
         (token : json) (w : world E),
  exists created failed w' tr,
    seed_test_data_keycloak.create_test_users E CONFIG token w
      = (Ret (created, failed), w')
    /\ created + failed = Z.max 0 (seed_test_data_keycloak.user_count CONFIG)
    /\ 0 <= created /\ 0 <= failed
    /\ issued w w' tr
    /\ filter is_post tr
       = map (seed_test_data_keycloak.user_request E CONFIG token)
           (py_range 1 (seed_test_data_keycloak.user_count CONFIG + 1))
    /\ Z.of_nat (List.length tr)
       <= 2 * Z.max 0 (seed_test_data_keycloak.user_count CONFIG).
Proof.
  intros E CONFIG token w.
  unfold seed_test_data_keycloak.create_test_users.
  destruct (keycloak_script_loop E CONFIG token
              (py_range 1 (seed_test_data_keycloak.user_count CONFIG + 1)) 0 0 w)
    as (c & f & w' & tr & Hrun & Hsum & Hc & Hf & Ht & Hp & Hl).
  exists c, f, w', tr.
  pose proof (py_range_length 1 (seed_test_data_keycloak.user_count CONFIG + 1))
    as Hlen.
  split; [exact Hrun|]. split; [lia|]. split; [lia|]. split; [lia|].
  split; [exact Ht|]. split; [exact Hp|]. lia.
Qed.

(** X1: the user loop of the Keycloak script cannot be interrupted by the
    server: whatever the replies, it ends normally with
    created + failed = max(0, user_count); its POST requests are, in order,
    exactly the create-user requests of indices 1..user_count, and it
    issues at most two requests per index. *)
Theorem X1_keycloak_script_user_loop_total :
  forall (E : environment) (CONFIG : seed_test_data_keycloak.CONFIG_t)
         (token : json) (w : world E),
  exists created failed w' tr,
    seed_test_data_keycloak.create_test_users E CONFIG token w
      = (Ret (created, failed), w')
    /\ created + failed = Z.max 0 (seed_test_data_keycloak.user_count CONFIG)
    /\ 0 <= created /\ 0 <= failed
    /\ issued w w' tr
    /\ filter is_post tr
       = map (seed_test_data_keycloak.user_request E CONFIG token)
           (py_range 1 (seed_test_data_keycloak.user_count CONFIG + 1))
    /\ Z.of_nat (List.length tr)
       <= 2 * Z.max 0 (seed_test_data_keycloak.user_count CONFIG).
Proof. exact keycloak_script_users_total. Qed.





(** X3: the Keycloak script's [create_client] never raises and issues
    exactly one request whatever the reply: it returns the last segment of
    the [Location] header for status 200, 201 or 204 and [None] otherwise,
    so on 409 the existing client is not looked up.  The descriptor it
    posts always carries the configured client secret. *)
Theorem X3_keycloak_script_create_client :
  forall (E : environment) (CONFIG : seed_test_data_keycloak.CONFIG_t)
         (token : json) (realm : string) (client_data : dict) (w : world E),
    let rq := seed_test_data_keycloak.create_client_request E CONFIG token
                realm client_data in
    seed_test_data_keycloak.create_client E CONFIG token realm client_data w
      = (Ret (keycloak_id_of (answer w rq)), after w rq)
    /\ (forall r, answer w rq = Response r -> status_code r = 409 ->
                  keycloak_id_of (answer w rq) = JNull)
    /\ exists d,
         rq_body rq = JsonBody (JObj d)
         /\ lookup "secret" d
            = Some (JStr (seed_test_data_keycloak.client_secret CONFIG))
         /\ lookup "clientId" d = Some (dict_get client_data "client_id" JNull).
Proof.
  intros E CONFIG token realm client_data w rq.
  split; [apply keycloak_script_create_client_run|].
  split.
  - intros r Hr Hs. rewrite Hr. unfold keycloak_id_of. rewrite Hs. reflexivity.
  - eexists. split; [reflexivity|]. split; reflexivity.
Qed.

(** Witness for X3: a conflict. *)
Lemma X3_keycloak_script_create_client_witness :
  let w := scripted_world [Response (mkResponse 409 [] "" None)] [] in
  keycloak_id_of
    (answer w (seed_test_data_keycloak.create_client_request scripted
                 (sample_keycloak_seed_config 2) (JStr "tok") "perf"
                 [("client_id", JStr "c1")])) = JNull.
Proof.
  intros w.
  exact (proj1 (proj2 (X3_keycloak_script_create_client scripted
                         (sample_keycloak_seed_config 2) (JStr "tok") "perf"
                         [("client_id", JStr "c1")] w))
           (mkResponse 409 [] "" None) eq_refl eq_refl).
Defined.

(** ** lib/keycloak_provider.py: secrets, users, passwords *)

Lemma keycloak_get_client_secret_run E config token realm uuid (w : world E) :
  KeycloakProvider.get_client_secret E config token realm uuid w
    = (secret_outcome E
         (answer w (KeycloakProvider.get_client_secret_request E config token
                      realm uuid)),
       after w (KeycloakProvider.get_client_secret_request E config token
                  realm uuid)).
Proof.
  unfold KeycloakProvider.get_client_secret, secret_outcome. run_py.
  match goal with |- context [handle E (srv w) ?rq] => case_reply w rq end;
    [|reflexivity].
  destruct (status_code r =? 200); [|reflexivity].
  destruct (json_body r) as [[| | | | |d]|]; cbn; try reflexivity.
  destruct (json_error_is_request_exception E); reflexivity.
Qed.

Lemma keycloak_generate_client_secret_run E config token realm uuid (w : world E) :
  KeycloakProvider.generate_client_secret E config token realm uuid w
    = (secret_outcome E
         (answer w (KeycloakProvider.generate_client_secret_request E config
                      token realm uuid)),
       after w (KeycloakProvider.generate_client_secret_request E config token
                  realm uuid)).
Proof.
  unfold KeycloakProvider.generate_client_secret, secret_outcome. run_py.
  match goal with |- context [handle E (srv w) ?rq] => case_reply w rq end;
    [|reflexivity].
  destruct (status_code r =? 200); [|reflexivity].
  destruct (json_body r) as [[| | | | |d]|]; cbn; try reflexivity.
  destruct (json_error_is_request_exception E); reflexivity.
Qed.

(** X4: Backend A's [create_default_client] asks for a new secret (the POST
    that rotates it) only when reading the secret gave nothing.  With a
    UUID from [create_client]: when the GET yields a truthy secret the
    result is the UUID with that secret and the GET is the last request;
    when it yields none, the POST follows and its value (possibly [None])
    is returned with the UUID; an exception of either call propagates.
    Without a UUID the result is [(None, None)] and neither endpoint is
    called. *)
Theorem X4_keycloak_default_client_secret :
  forall (E : environment) (config : Config) (token : json) (realm : string)
         (w w1 : world E) (uuid : json),
    KeycloakProvider.create_client E config token realm
      (KeycloakProvider.default_client_data config) w = (Ret uuid, w1) ->
    let g := KeycloakProvider.get_client_secret_request E config token realm uuid in
    let p := KeycloakProvider.generate_client_secret_request E config token
               realm uuid in
    let run := KeycloakProvider.create_default_client E config token realm w in
    (truthy uuid = false -> run = (Ret (JNull, JNull), w1))
    /\ (truthy uuid = true ->
        match secret_outcome E (answer w1 g) with
        | Raise e => run = (Raise e, after w1 g)
        | Ret s =>
            if truthy s then run = (Ret (uuid, s), after w1 g)
            else run = (match secret_outcome E (answer (after w1 g) p) with
                        | Ret s' => Ret (uuid, s')
                        | Raise e => Raise e
                        end, after (after w1 g) p)
        end).
Proof.
  intros E config token realm w w1 uuid Hc g p run.
  assert (Hrun : run =
            (if negb (truthy uuid) then ret (JNull, JNull)
             else
               secret <- KeycloakProvider.get_client_secret E config token
                           realm uuid ;;
               secret <- (if negb (truthy secret)
                          then KeycloakProvider.generate_client_secret E config
                                 token realm uuid
                          else ret secret) ;;
               ret (uuid, secret)) w1).
  { subst run. unfold KeycloakProvider.create_default_client.
    unfold bind at 1. rewrite Hc. reflexivity. }
  clearbody run. split; intros Hu; rewrite Hu in Hrun; cbn [negb] in Hrun.
  - exact Hrun.
  - pose proof (keycloak_get_client_secret_run E config token realm uuid w1)
      as Hg.
    fold g in Hg.
    destruct (secret_outcome E (answer w1 g)) as [s|e].
    + destruct (truthy s) eqn:Hs; rewrite Hrun; unfold bind at 1;
        rewrite Hg; cbv beta; rewrite Hs; cbn [negb].
      * reflexivity.
      * unfold bind at 1. rewrite keycloak_generate_client_secret_run. fold p.
        destruct (secret_outcome E (answer (after w1 g) p)); reflexivity.
    + rewrite Hrun. unfold bind at 1. rewrite Hg. reflexivity.
Qed.

(** Witness for X4: the client is created and already has a secret; the
    third reply, a rotated secret, is never asked for. *)
Lemma X4_keycloak_default_client_secret_witness :
  let w := scripted_world
             [Response (mkResponse 201
                          [("Location", "http://kc/admin/realms/perf/clients/u-7")]
                          "" None);
              Response (json_response 200 (JObj [("value", JStr "s3cret")]));
              Response (json_response 200 (JObj [("value", JStr "rotated")]))] [] in
  let w1 := snd (KeycloakProvider.create_client scripted sample_config
                   (JStr "tok") "perf"
                   (KeycloakProvider.default_client_data sample_config) w) in
  KeycloakProvider.create_default_client scripted sample_config (JStr "tok")
    "perf" w
  = (Ret (JStr "u-7", JStr "s3cret"),
     after w1 (KeycloakProvider.get_client_secret_request scripted sample_config
                 (JStr "tok") "perf" (JStr "u-7"))).
Proof.
  intros w w1.
  exact (proj2 (X4_keycloak_default_client_secret scripted sample_config
                  (JStr "tok") "perf" w w1 (JStr "u-7") eq_refl) eq_refl).
Defined.

Lemma keycloak_set_user_password_run E config token realm uid pw (w : world E) :
  KeycloakProvider.set_user_password E config token realm uid pw w
    = if truthy uid
      then (Ret (password_set
                   (answer w (KeycloakProvider.set_user_password_request
                                E config token realm uid pw))),
            after w (KeycloakProvider.set_user_password_request
                       E config token realm uid pw))
      else (Ret false, w).
Proof.
  unfold KeycloakProvider.set_user_password, password_set.
  destruct (truthy uid); cbn [negb]; [|reflexivity].
  run_py.
  match goal with |- context [handle E (srv w) ?rq] => case_reply w rq end;
    reflexivity.
Qed.

Lemma ferriskey_set_user_password_run E config token realm uid pw (w : world E) :
  FerrisKeyProvider.set_user_password E config token realm uid pw w
    = if truthy uid
      then (Ret (password_set
                   (answer w (FerrisKeyProvider.set_user_password_request
                                E config token realm uid pw))),
            after w (FerrisKeyProvider.set_user_password_request
                       E config token realm uid pw))
      else (Ret false, w).
Proof.
  unfold FerrisKeyProvider.set_user_password, password_set.
  destruct (truthy uid); cbn [negb]; [|reflexivity].
  run_py.
  match goal with |- context [handle E (srv w) ?rq] => case_reply w rq end;
    reflexivity.
Qed.

(** X5: both providers' [set_user_password] never raise.  For a missing or
    empty user id they report failure without issuing any request; for any
    other id they issue exactly one PUT to the user's [reset-password]
    resource and succeed exactly when it is answered with 200 or 204. *)
Theorem X5_set_user_password_guard :
  forall (E : environment) (config : Config) (token : json) (realm : string)
         (user_id : json) (password : string) (w : world E),
    let rqA := KeycloakProvider.set_user_password_request E config token realm
                 user_id password in
    let rqB := FerrisKeyProvider.set_user_password_request E config token realm
                 user_id password in
    (truthy user_id = false ->
     KeycloakProvider.set_user_password E config token realm user_id password w
       = (Ret false, w)
     /\ FerrisKeyProvider.set_user_password E config token realm user_id password w
        = (Ret false, w))
    /\ (truthy user_id = true ->
        KeycloakProvider.set_user_password E config token realm user_id password w
          = (Ret (password_set (answer w rqA)), after w rqA)
        /\ FerrisKeyProvider.set_user_password E config token realm user_id
             password w
           = (Ret (password_set (answer w rqB)), after w rqB)
        /\ rq_method rqA = PUT /\ rq_method rqB = PUT
        /\ rq_url rqA = base_url config ++ "/admin/realms/" ++ realm ++ "/users/"
                        ++ py_str E user_id ++ "/reset-password"
        /\ rq_url rqB = base_url config ++ "/realms/" ++ realm ++ "/users/"
                        ++ py_str E user_id ++ "/reset-password").
Proof.
  intros E config token realm user_id password w rqA rqB.
  split; intros Hu.
  - rewrite keycloak_set_user_password_run, ferriskey_set_user_password_run, Hu.
    split; reflexivity.
  - rewrite keycloak_set_user_password_run, ferriskey_set_user_password_run, Hu.
    repeat split; reflexivity.
Qed.

(** Witness for X5: no user id, no request. *)
Lemma X5_set_user_password_guard_witness :
  let w := scripted_world [Response (mkResponse 204 [] "" None)] [] in
  KeycloakProvider.set_user_password scripted sample_config (JStr "tok") "perf"
    JNull "pw" w = (Ret false, w)
  /\ fst (FerrisKeyProvider.set_user_password scripted sample_config (JStr "tok")
            "perf" (JStr "u-1") "pw" w) = Ret true.
Proof.
  intros w. split.
  - exact (proj1 (proj1 (X5_set_user_password_guard scripted sample_config
                           (JStr "tok") "perf" JNull "pw" w) eq_refl)).
  - destruct (proj2 (X5_set_user_password_guard scripted sample_config
                       (JStr "tok") "perf" (JStr "u-1") "pw" w) eq_refl)
      as (_ & H & _).
    rewrite H. reflexivity.
Defined.

(** ** lib/ferriskey_provider.py: identifiers and secrets *)

Lemma ferriskey_extract_id (d : dict) :
  (if data_member_ok d then nested_or_top "id" d else JNull)
  = match dict_get d "data" (JObj []) with
    | JObj inner =>
        if truthy (dict_get inner "id" JNull) then dict_get inner "id" JNull
        else dict_get d "id" JNull
    | _ => JNull
    end.
Proof.
  unfold data_member_ok, nested_or_top, dict_get.
  destruct (lookup "data" d) as [[| | | | |inner]|]; reflexivity.
Qed.

Lemma ferriskey_create_client_run E config token realm cd (w : world E) :
  FerrisKeyProvider.create_client E config token realm cd w
    = (Ret (ferriskey_id_of
              (answer w (Requests.ferriskey_create_client E config token realm cd))),
       after w (Requests.ferriskey_create_client E config token realm cd)).
Proof.
  unfold FerrisKeyProvider.create_client, Requests.ferriskey_create_client,
    ferriskey_id_of.
  run_py.
  match goal with |- context [handle E (srv w) ?rq] => case_reply w rq end;
    [|reflexivity].
  destruct (in_ (status_code r) [200; 201]).
  - destruct (json_body r) as [[| | | | |d]|]; cbn; try reflexivity.
    rewrite ferriskey_extract_id.
    destruct (dict_get d "data" (JObj [])) as [| | | | |inner]; cbn;
      try reflexivity.
    destruct (truthy (dict_get inner "id" JNull)); reflexivity.
  - destruct (in_ (status_code r) [400; 409]); reflexivity.
Qed.

Lemma ferriskey_create_user_run E config token realm u f l e (w : world E) :
  let rq :=
    mkRequest POST (base_url config ++ "/realms/" ++ realm ++ "/users")
      (FerrisKeyProvider.bearer E token) []
      (JsonBody (JObj [("username", JStr u); ("firstname", JStr f);
                       ("lastname", JStr l); ("email", JStr e);
                       ("email_verified", JBool true)]))
      (request_timeout config) in
  FerrisKeyProvider.create_user E config token realm u f l e w
    = (Ret (ferriskey_id_of (answer w rq)), after w rq).
Proof.
  intros rq. subst rq.
  unfold FerrisKeyProvider.create_user, ferriskey_id_of.
  run_py.
  match goal with |- context [handle E (srv w) ?rq] => case_reply w rq end;
    [|reflexivity].
  destruct (in_ (status_code r) [200; 201]); [|reflexivity].
  destruct (json_body r) as [[| | | | |d]|]; cbn; try reflexivity.
  rewrite ferriskey_extract_id.
  destruct (dict_get d "data" (JObj [])) as [| | | | |inner]; cbn;
    try reflexivity.
  destruct (truthy (dict_get inner "id" JNull)); reflexivity.
Qed.

(** X6: Backend B's [create_client] and [create_user] never raise and
    issue exactly one request, whatever the server answers: the result is
    [data.id], else the top-level [id], of a 200/201 reply whose body is an
    object with [data] absent or an object, and [None] for every other
    reply: another status, a transport failure, a body that is not JSON, a
    JSON body that is not an object, or a [data] member that is not one. *)
Theorem X6_ferriskey_create_never_raises :
  forall (E : environment) (config : Config) (token : json) (realm : string)
         (client_data : dict) (username firstname lastname email : string)
         (w : world E),
    let client := Requests.ferriskey_create_client E config token realm
                    client_data in
    let user :=
      mkRequest POST (base_url config ++ "/realms/" ++ realm ++ "/users")
        (FerrisKeyProvider.bearer E token) []
        (JsonBody (JObj [("username", JStr username);
                         ("firstname", JStr firstname);
                         ("lastname", JStr lastname);
                         ("email", JStr email);
                         ("email_verified", JBool true)]))
        (request_timeout config) in
    FerrisKeyProvider.create_client E config token realm client_data w
      = (Ret (ferriskey_id_of (answer w client)), after w client)
    /\ FerrisKeyProvider.create_user E config token realm username firstname
         lastname email w
       = (Ret (ferriskey_id_of (answer w user)), after w user).
Proof.
  intros. split;
    [apply ferriskey_create_client_run | apply ferriskey_create_user_run].
Qed.

(** X7: Backend B's [get_client_secret] returns [None] for a transport
    failure and for any status other than 200, but on a 200 reply whose
    JSON body is not an object, or whose [data] member is present and not
    an object, the [AttributeError] of the look-up leaves the function; in
    [create_default_client] it then replaces the result, although the
    client has been created. *)
Theorem X7_ferriskey_get_client_secret_errors :
  forall (E : environment) (config : Config) (token : json) (realm : string)
         (uuid : json) (w : world E),
    let rq := Requests.ferriskey_get_client E config token realm uuid in
    match answer w rq with
    | Failure =>
        FerrisKeyProvider.get_client_secret E config token realm uuid w
          = (Ret JNull, after w rq)
    | Response r =>
        (status_code r <> 200 ->
         FerrisKeyProvider.get_client_secret E config token realm uuid w
           = (Ret JNull, after w rq))
        /\ (forall j,
              status_code r = 200 ->
              json_body r = Some j ->
              match j with
              | JObj d => data_member_ok d = false
              | _ => True
              end ->
              FerrisKeyProvider.get_client_secret E config token realm uuid w
                = (Raise AttributeError, after w rq)
              /\ forall w0,
                   FerrisKeyProvider.create_client E config token realm
                     (FerrisKeyProvider.default_client_data config) w0
                     = (Ret uuid, w) ->
                   truthy uuid = true ->
                   FerrisKeyProvider.create_default_client E config token realm w0
                     = (Raise AttributeError, after w rq))
    end.
Proof.
  intros E config token realm uuid w rq.
  assert (Hcases :
    match answer w rq with
    | Failure =>
        FerrisKeyProvider.get_client_secret E config token realm uuid w
          = (Ret JNull, after w rq)
    | Response r =>
        (status_code r <> 200 ->
         FerrisKeyProvider.get_client_secret E config token realm uuid w
           = (Ret JNull, after w rq))
        /\ (forall j,
              status_code r = 200 ->
              json_body r = Some j ->
              match j with
              | JObj d => data_member_ok d = false
              | _ => True
              end ->
              FerrisKeyProvider.get_client_secret E config token realm uuid w
                = (Raise AttributeError, after w rq))
    end).
  { subst rq.
    unfold FerrisKeyProvider.get_client_secret, Requests.ferriskey_get_client.
    run_py.
    match goal with |- context [handle E (srv w) ?rq] => case_reply w rq end;
      [|reflexivity].
    split.
    - intros Hs. apply Z.eqb_neq in Hs. rewrite Hs. reflexivity.
    - intros j Hs Hj Hshape. rewrite Hs, Hj. cbn.
      destruct j as [| | | | |d]; try reflexivity.
      unfold data_member_ok, dict_get in *. cbn.
      destruct (lookup "data" d) as [[| | | | |inner]|];
        try discriminate Hshape; reflexivity. }
  destruct (answer w rq) as [r|]; [|exact Hcases].
  destruct Hcases as [H1 H2]. split; [exact H1|].
  intros j Hs Hj Hshape. split; [apply (H2 j Hs Hj Hshape)|].
  intros w0 Hc Hu.
  unfold FerrisKeyProvider.create_default_client.
  unfold bind at 1. rewrite Hc. cbv beta. rewrite Hu. cbn [negb].
  unfold bind at 1. rewrite (H2 j Hs Hj Hshape). reflexivity.
Qed.

(** Witness for X7: the fetch is answered with [{"data": null}]. *)
Lemma X7_ferriskey_get_client_secret_errors_witness :
  let w := scripted_world
             [Response (json_response 200 (JObj [("data", JNull)]))] [] in
  fst (FerrisKeyProvider.get_client_secret scripted sample_config (JStr "tok")
         "perf-realm" (JStr "u-1") w) = Raise AttributeError.
Proof.
  intros w.
  pose proof (X7_ferriskey_get_client_secret_errors scripted sample_config
                (JStr "tok") "perf-realm" (JStr "u-1") w) as H.
  cbv zeta in H.
  change (answer w (Requests.ferriskey_get_client scripted sample_config
                      (JStr "tok") "perf-realm" (JStr "u-1")))
    with (Response (json_response 200 (JObj [("data", JNull)]))) in H.
  destruct H as [_ H].
  destruct (H (JObj [("data", JNull)]) eq_refl eq_refl eq_refl) as [Hg _].
  rewrite Hg. reflexivity.
Defined.




(** ** lib/config.py *)

Lemma string_of_list_ascii_length (l : list ascii) :
  String.length (string_of_list_ascii l) = List.length l.
Proof. induction l as [|c l IH]; cbn; [reflexivity | now rewrite IH]. Qed.

Lemma get_has_char (s : string) :
  forall n c, String.get n s = Some c -> has_char c s = true.
Proof.
  induction s as [|a s IH]; intros n c H; [discriminate H|].
  destruct n as [|n]; cbn in *.
  - injection H as ->. now rewrite Ascii.eqb_refl.
  - rewrite (IH n c H). apply orb_true_r.
Qed.

Lemma get_in_range (s : string) :
  forall n, (n < String.length s)%nat -> exists c, String.get n s = Some c.
Proof.
  induction s as [|a s IH]; intros n H; cbn in H; [lia|].
  destruct n as [|n]; cbn; [eauto|]. apply IH. lia.
Qed.

Lemma choice_in_chars (chars : string) (draw : nat) :
  chars <> "" -> has_char (choice chars draw) chars = true.
Proof.
  intros Hne. unfold choice.
  assert (Hlen : (String.length chars <> 0)%nat)
    by (destruct chars; [contradiction | discriminate]).
  destruct (get_in_range chars (draw mod String.length chars)) as [c Hc].
  { apply Nat.mod_upper_bound. exact Hlen. }
  rewrite Hc. apply (get_has_char _ _ _ Hc).
Qed.

Lemma random_string_spec (draws : nat -> nat) (chars : string) (length : Z) :
  chars <> "" ->
  String.length (random_string draws chars length) = Z.to_nat length
  /\ all_in chars (random_string draws chars length).
Proof.
  intros Hne. unfold random_string, all_in. split.
  - rewrite string_of_list_ascii_length, length_map, length_seq. reflexivity.
  - rewrite list_ascii_of_string_of_list_ascii.
    apply Forall_map, Forall_forall. intros k _.
    apply choice_in_chars, Hne.
Qed.

Lemma generate_random_id_pattern (draws : nat -> nat) (prefix : string)
  (length : Z) :
  exists suffix,
    generate_random_id draws prefix length = prefix ++ suffix
    /\ String.length suffix = Z.to_nat length
    /\ all_in "abcdefghijklmnopqrstuvwxyz0123456789" suffix.
Proof.
  exists (random_string draws (ascii_lowercase ++ ascii_digits) length).
  split; [reflexivity|].
  apply (random_string_spec draws (ascii_lowercase ++ ascii_digits) length).
  discriminate.
Qed.

(** X9: whatever the random draws, [generate_random_id] returns the prefix
    followed by exactly [length] characters, each a lower-case letter or a
    digit; with the defaults that is "perf-client-" and 8 characters. *)
Theorem X9_generate_random_id_pattern :
  forall (draws : nat -> nat) (prefix : string) (length : Z),
  exists suffix,
    generate_random_id draws prefix length = prefix ++ suffix
    /\ String.length suffix = Z.to_nat length
    /\ all_in "abcdefghijklmnopqrstuvwxyz0123456789" suffix.
Proof. exact generate_random_id_pattern. Qed.

(** X10: whatever the random draws, [generate_random_secret] returns
    exactly [length] characters (16 by default), each an ASCII letter or a
    digit. *)
Theorem X10_generate_random_secret_pattern :
  forall (draws : nat -> nat) (length : Z),
    String.length (FerrisKeyProvider.generate_random_secret draws length)
      = Z.to_nat length
    /\ all_in "abcdefghijklmnopqrstuvwxyzABCDEFGHIJKLMNOPQRSTUVWXYZ0123456789"
         (FerrisKeyProvider.generate_random_secret draws length).
Proof.
  intros draws length.
  apply (random_string_spec draws (ascii_letters ++ ascii_digits) length).
  discriminate.
Qed.

Lemma optional_setting_cases (v : option string) :
  (optional_setting v = None
   /\ strip (match v with Some s => s | None => "" end) = "")
  \/ (optional_setting v
      = Some (strip (match v with Some s => s | None => "" end))
      /\ strip (match v with Some s => s | None => "" end) <> "").
Proof.
  unfold optional_setting.
  destruct (String.eqb_spec (strip match v with Some s => s | None => "" end) "")
    as [He|Hne]; cbn; [left | right]; auto.
Qed.

Lemma load_config_fields env py_int draws config :
  load_config env py_int draws = Some config ->
  admin_client_id config = optional_setting (env "ADMIN_CLIENT_ID")
  /\ admin_client_secret config = optional_setting (env "ADMIN_CLIENT_SECRET")
  /\ client_secret config = optional_setting (env "CLIENT_SECRET")
  /\ client_id config
     = (if negb (strip (getenv env "CLIENT_ID" "") =? "")%string
        then strip (getenv env "CLIENT_ID" "")
        else generate_random_id draws "perf-client-" 8)
  /\ iam_provider config = lower (getenv env "IAM_PROVIDER" "ferriskey").
Proof.
  unfold load_config.
  destruct (lower (getenv env "IAM_PROVIDER" "ferriskey") =? "keycloak")%string;
    destruct (py_int (getenv env "REQUEST_TIMEOUT" "30")); try discriminate;
    destruct (py_int (getenv env "USER_COUNT" "50")); try discriminate;
    intros H; injection H as <-; cbn; auto.
Qed.

(** X11: a configuration loaded with [ADMIN_CLIENT_ID] unset, empty or
    blank makes Backend B's [get_admin_token] exit with status 1 before any
    request; with any other value the token request is issued and carries
    that value, stripped, as client identifier. *)
Theorem X11_blank_admin_client_id_is_fatal :
  forall (env : string -> option string) (py_int : string -> option Z)
         (draws : nat -> nat) (config : Config) (E : environment) (w : world E),
    load_config env py_int draws = Some config ->
    let cid := strip (getenv env "ADMIN_CLIENT_ID" "") in
    (cid = "" ->
     FerrisKeyProvider.get_admin_token E config w = (Raise (SystemExit 1), w))
    /\ (cid <> "" ->
        snd (FerrisKeyProvider.get_admin_token E config w)
          = after w (Requests.ferriskey_token config cid)
        /\ In ("client_id", cid) (Requests.ferriskey_token_fields config cid)).
Proof.
  intros env py_int draws config E w Hload. cbv zeta.
  destruct (load_config_fields env py_int draws config Hload) as (Hid & _).
  unfold getenv.
  destruct (optional_setting_cases (env "ADMIN_CLIENT_ID")) as [[Ho He]|[Ho Hne]];
    rewrite Ho in Hid;
    set (cid := strip match env "ADMIN_CLIENT_ID" with
                      | Some v => v | None => "" end) in *;
    clearbody cid.
  - split; [|intros Hc; contradiction].
    intros _. unfold FerrisKeyProvider.get_admin_token. rewrite Hid. reflexivity.
  - split; [intros Hc; contradiction|]. intros _.
    split; [apply ferriskey_token_sends; assumption|].
    unfold Requests.ferriskey_token_fields. cbn. tauto.
Qed.

(** Witness for X11: [ADMIN_CLIENT_ID] is not set. *)
Lemma X11_blank_admin_client_id_is_fatal_witness :
  let w := scripted_world [Failure] [] in
  FerrisKeyProvider.get_admin_token scripted sample_loaded_config w
    = (Raise (SystemExit 1), w).
Proof.
  intros w.
  exact (proj1 (X11_blank_admin_client_id_is_fatal sample_env sample_int
                  (fun k => k) sample_loaded_config scripted w eq_refl) eq_refl).
Defined.

(** X12: in every loaded configuration the optional settings
    ([ADMIN_CLIENT_ID], [ADMIN_CLIENT_SECRET], [CLIENT_SECRET]) are absent
    or non-empty, never the empty string; the client identifier is the
    stripped [CLIENT_ID] when that is not blank and otherwise "perf-client-"
    followed by 8 lower-case letters or digits, so it is never empty; and
    the provider name is lower-case [IAM_PROVIDER]. *)
Theorem X12_load_config_invariants :
  forall (env : string -> option string) (py_int : string -> option Z)
         (draws : nat -> nat) (config : Config),
    load_config env py_int draws = Some config ->
    admin_client_id config <> Some ""
    /\ admin_client_secret config <> Some ""
    /\ client_secret config <> Some ""
    /\ (strip (getenv env "CLIENT_ID" "") <> "" ->
        client_id config = strip (getenv env "CLIENT_ID" ""))
    /\ (strip (getenv env "CLIENT_ID" "") = "" ->
        exists suffix,
          client_id config = "perf-client-" ++ suffix
          /\ String.length suffix = 8%nat
          /\ all_in "abcdefghijklmnopqrstuvwxyz0123456789" suffix)
    /\ client_id config <> ""
    /\ iam_provider config = lower (getenv env "IAM_PROVIDER" "ferriskey").
Proof.
  intros env py_int draws config Hload.
  destruct (load_config_fields env py_int draws config Hload)
    as (Ha & Hs & Hc & Hid & Hp).
  assert (Hopt : forall v, optional_setting v <> Some "").
  { intros v. destruct (optional_setting_cases v) as [[-> _]|[-> Hne]];
      [discriminate | congruence]. }
  split; [rewrite Ha; apply Hopt|].
  split; [rewrite Hs; apply Hopt|].
  split; [rewrite Hc; apply Hopt|].
  destruct (String.eqb_spec (strip (getenv env "CLIENT_ID" "")) "") as [He|Hne];
    cbn [negb] in Hid.
  - split; [intros H; contradiction|].
    split.
    + intros _. rewrite Hid. apply (generate_random_id_pattern draws "perf-client-" 8).
    + split; [|exact Hp]. rewrite Hid. discriminate.
  - split; [intros _; exact Hid|].
    split; [intros H; contradiction|].
    split; [|exact Hp]. rewrite Hid. exact Hne.
Qed.

(** Witness for X12: with [CLIENT_ID] unset the identifier is generated. *)
Lemma X12_load_config_invariants_witness :
  admin_client_id sample_loaded_config <> Some ""
  /\ exists suffix,
       client_id sample_loaded_config = "perf-client-" ++ suffix
       /\ String.length suffix = 8%nat
       /\ all_in "abcdefghijklmnopqrstuvwxyz0123456789" suffix.
Proof.
  destruct (X12_load_config_invariants sample_env sample_int (fun k => k)
              sample_loaded_config eq_refl) as (H1 & _ & _ & _ & H2 & _).
  split; [exact H1 | exact (H2 eq_refl)].
Defined.

(** ** The orchestration of the stand-alone scripts *)




Lemma seed_token_run E CONFIG (w : world E) :
  seed_test_data.get_admin_token E CONFIG w
    = (match answer w (seed_token_request CONFIG) with
       | Response r => token_outcome E r
       | Failure => Raise (SystemExit 1)
       end, after w (seed_token_request CONFIG)).
Proof.
  unfold seed_test_data.get_admin_token, seed_token_request, token_url.
  run_py.
  match goal with |- context [handle E (srv w) ?rq] => case_reply w rq end;
    [|reflexivity].
  token_cases r.
Qed.

Lemma seed_create_realm_total E CONFIG token realm (w : world E) :
  exists b,
    seed_test_data.create_realm E CONFIG token realm w
      = (Ret b, after w (seed_realm_request E CONFIG token realm)).
Proof.
  unfold seed_test_data.create_realm, seed_realm_request. run_py.
  match goal with |- context [handle E (srv w) ?rq] => case_reply w rq end;
    [|cbn; eauto].
  destruct (in_ (status_code r) [200; 201]); [eauto|].
  destruct (in_ (status_code r) [400; 409]); eauto.
Qed.

Lemma seed_create_client_sends E CONFIG token realm cd (w : world E) :
  snd (seed_test_data.create_client E CONFIG token realm cd w)
    = after w (seed_client_request E CONFIG token realm cd).
Proof.
  unfold seed_test_data.create_client, seed_client_request. run_py.
  match goal with |- context [handle E (srv w) ?rq] => case_reply w rq end;
    [|reflexivity].
  destruct (in_ (status_code r) [200; 201]).
  - destruct (json_body r) as [[| | | | |d]|]; cbn; try reflexivity.
    destruct (dict_get d "data" (JObj [])) as [| | | | |inner]; cbn;
      try reflexivity.
    destruct (truthy (dict_get inner "id" JNull)); reflexivity.
  - destruct (in_ (status_code r) [400; 409]); reflexivity.
Qed.

(** Requests are only ever added to the log. *)
Lemma bind_issued E A B (m : M E A) (k : A -> M E B) (w : world E) :
  (exists tr, issued w (snd (m w)) tr) ->
  (forall a w1, exists tr, issued w1 (snd (k a w1)) tr) ->
  exists tr, issued w (snd (bind m k w)) tr.
Proof.
  intros [tr1 H1] Hk. unfold bind.
  destruct (m w) as [[a|e] w1]; cbn [snd] in *.
  - destruct (Hk a w1) as [tr2 H2]. exists (tr1 ++ tr2)%list.
    unfold issued in *. rewrite H2, H1, <- app_assoc. reflexivity.
  - exists tr1. exact H1.
Qed.

Lemma for_in_issued E A S (body : A -> S -> M E S) (l : list A) :
  (forall x s w, exists tr, issued w (snd (body x s w)) tr) ->
  forall s w, exists tr, issued w (snd (for_in l body s w)) tr.
Proof.
  intros Hb. induction l as [|x l IH]; intros s w.
  - exists []. unfold issued. cbn. now rewrite app_nil_r.
  - cbn [for_in]. apply bind_issued; [apply Hb|].
    intros s1 w1. apply IH.
Qed.

Lemma seed_rest_issued E CONFIG token (clients : list dict) (w : world E) :
  exists tr,
    issued w
      (snd ((for_in clients
               (fun client_data (_ : unit) =>
                  seed_test_data.create_client E CONFIG token
                    (seed_test_data.perf_realm CONFIG) client_data ;;; ret tt)
               tt ;;;
             seed_test_data.create_test_users E CONFIG token ;;;
             ret tt) w)) tr.
Proof.
  apply bind_issued.
  - apply for_in_issued. intros cd s w0. apply bind_issued.
    + rewrite seed_create_client_sends. eexists; unfold issued, after; cbn [sent]; reflexivity.
    + intros a w1. exists []. unfold issued. cbn. now rewrite app_nil_r.
  - intros _ w1. apply bind_issued.
    + unfold seed_test_data.create_test_users. apply for_in_issued.
      intros i [c f] w0. unfold seed_test_data.user_loop_body.
      apply bind_issued.
      * unfold seed_test_data.create_user. run_py.
        match goal with |- context [handle E (srv w0) ?rq] => case_reply w0 rq end;
          [|eexists; unfold issued; cbn [sent]; reflexivity].
        destruct (in_ (status_code r) [200; 201]).
        -- destruct (json_body r) as [[| | | | |d]|]; cbn;
             try (eexists; unfold issued; cbn [sent]; reflexivity).
           destruct (dict_get d "data" (JObj [])) as [| | | | |inner]; cbn;
             try (eexists; unfold issued; cbn [sent]; reflexivity).
           destruct (truthy (dict_get inner "id" JNull)); eexists; unfold issued; cbn [sent]; reflexivity.
        -- destruct (in_ (status_code r) [400; 409]); eexists; unfold issued; cbn [sent]; reflexivity.
      * intros uid w2. destruct (truthy uid).
        -- apply bind_issued.
           ++ destruct (set_user_password_total E CONFIG token
                          (seed_test_data.perf_realm CONFIG) uid
                          (seed_test_data.user_password CONFIG) w2)
                as (b & w3 & Hb & tr & Ht).
              rewrite Hb. exists tr. exact Ht.
           ++ intros b w3. exists []. unfold issued.
              destruct b; cbn; now rewrite app_nil_r.
        -- exists []. unfold issued. cbn. now rewrite app_nil_r.
    + intros a w2. exists []. unfold issued. cbn. now rewrite app_nil_r.
Qed.

(** X14: in seed_test_data.py a failed authentication ends [main] with
    the token request as its only request, while a failed realm creation
    does not stop the run: once a token is obtained, the realm request is
    issued and, whatever its reply, the creation request of the first
    fixture client follows. *)
Theorem X14_seed_main_realm_failure_not_fatal :
  forall (E : environment) (CONFIG : seed_test_data.CONFIG_t)
         (clients_file : option (list dict)) (w : world E),
    let token_rq := seed_token_request CONFIG in
    let realm := seed_test_data.perf_realm CONFIG in
    let run := seed_test_data.main E CONFIG clients_file w in
    (forall e,
       fst (seed_test_data.get_admin_token E CONFIG w) = Raise e ->
       run = (Raise e, after w token_rq))
    /\ (forall token,
          fst (seed_test_data.get_admin_token E CONFIG w) = Ret token ->
          exists tr,
            issued (after w token_rq) (snd run)
              (seed_realm_request E CONFIG token realm :: tr)
            /\ forall cd rest,
                 clients_file = Some (cd :: rest) ->
                 exists tr',
                   tr = seed_client_request E CONFIG token realm cd :: tr').
Proof.
  intros E CONFIG clients_file w token_rq realm run.
  pose proof (seed_token_run E CONFIG w) as Ht. fold token_rq in Ht.
  split.
  - intros e He. subst run. unfold seed_test_data.main. unfold bind at 1.
    rewrite Ht in *. cbn [fst] in He. rewrite He. reflexivity.
  - intros token Hok. rewrite Ht in Hok. cbn [fst] in Hok.
    destruct (seed_create_realm_total E CONFIG token realm (after w token_rq))
      as (b & Hr).
    set (w2 := after (after w token_rq) (seed_realm_request E CONFIG token realm))
      in *.
    assert (Hrun : run =
              (clients <- seed_test_data.load_clients_fixture E clients_file ;;
               for_in clients
                 (fun client_data (_ : unit) =>
                    seed_test_data.create_client E CONFIG token realm client_data
                    ;;; ret tt) tt ;;;
               seed_test_data.create_test_users E CONFIG token ;;;
               ret tt) w2).
    { subst run. unfold seed_test_data.main. unfold bind at 1.
      rewrite Ht, Hok. unfold bind at 1. fold realm. rewrite Hr. reflexivity. }
    rewrite Hrun. unfold bind at 1.
    unfold seed_test_data.load_clients_fixture, ret at 1 2.
    destruct clients_file as [clients|].
    + destruct clients as [|cd rest].
      * destruct (seed_rest_issued E CONFIG token [] w2) as [tr Hi].
        exists tr. split.
        -- unfold issued in *. fold realm in Hi. rewrite Hi. subst w2.
           unfold after. cbn [sent]. now rewrite <- app_assoc.
        -- intros cd rest H. discriminate H.
      * cbn [for_in]. unfold bind at 1. unfold bind at 1. unfold bind at 1.
        pose proof (seed_create_client_sends E CONFIG token realm cd w2) as Hc.
        destruct (seed_test_data.create_client E CONFIG token realm cd w2)
          as [[v|e] w3]; cbn [snd] in Hc; subst w3.
        -- unfold ret at 1.
           destruct (seed_rest_issued E CONFIG token rest
                       (after w2 (seed_client_request E CONFIG token realm cd)))
             as [tr Hi].
           exists (seed_client_request E CONFIG token realm cd :: tr).
           split; [|intros cd' rest' H; injection H as <- <-; eauto].
           unfold issued in *. fold realm in Hi.
           unfold bind in Hi |- *. rewrite Hi. subst w2. unfold after.
           cbn [sent]. rewrite <- !app_assoc. reflexivity.
        -- exists [seed_client_request E CONFIG token realm cd].
           split; [|intros cd' rest' H; injection H as <- <-; eauto].
           unfold issued. cbn [snd]. subst w2. unfold after. cbn [sent].
           rewrite <- !app_assoc. reflexivity.
    + destruct (seed_rest_issued E CONFIG token [] w2) as [tr Hi].
      exists tr. split.
      * unfold issued in *. fold realm in Hi. rewrite Hi. subst w2.
        unfold after. cbn [sent]. now rewrite <- app_assoc.
      * intros cd rest H. discriminate H.
Qed.

(** Witness for X14: the realm creation is answered with 500 and the
    first fixture client is created all the same. *)
Lemma X14_seed_main_realm_failure_not_fatal_witness :
  let CONFIG := sample_seed_config 1 in
  let fixture := Some [[("client_id", JStr "c1")]] in
  let w := scripted_world
             [Response (json_response 200 (JObj [("access_token", JStr "tok")]));
              Response (mkResponse 500 [] "boom" None)] [] in
  exists tr,
    issued (after w (seed_token_request CONFIG))
      (snd (seed_test_data.main scripted CONFIG fixture w))
      (seed_realm_request scripted CONFIG (JStr "tok") "perf-realm" :: tr)
    /\ forall cd rest,
         fixture = Some (cd :: rest) ->
         exists tr',
           tr = seed_client_request scripted CONFIG (JStr "tok") "perf-realm" cd
                :: tr'.
Proof.
  intros CONFIG fixture w.
  exact (proj2 (X14_seed_main_realm_failure_not_fatal scripted CONFIG fixture w)
           (JStr "tok") eq_refl).
Defined.

(** ** Derived names *)

Lemma append_length (a b : string) :
  String.length (a ++ b) = (String.length a + String.length b)%nat.
Proof. induction a as [|c a IH]; cbn; [reflexivity | now rewrite IH]. Qed.

Lemma append_cancel_r (a b s : string) : a ++ s = b ++ s -> a = b.
Proof.
  intros H.
  assert (Hlen : String.length a = String.length b).
  { apply (f_equal String.length) in H. rewrite !append_length in H. lia. }
  revert b H Hlen. induction a as [|c a IH]; intros [|d b] H Hlen;
    try discriminate Hlen; [reflexivity|].
  cbn in H. injection H as -> H. f_equal. apply IH; [exact H|].
  cbn in Hlen. lia.
Qed.

(** X15: for indices that are not negative, the last name and the e-mail
    address derived for a user determine the index, in both seeding
    scripts: no two users of a batch share a last name or an address. *)
Theorem X15_lastname_email_injective :
  forall i j : Z,
    0 <= i -> 0 <= j ->
    (seed_test_data.lastname i = seed_test_data.lastname j -> i = j)
    /\ (seed_test_data.email i = seed_test_data.email j -> i = j)
    /\ (seed_test_data_keycloak.lastname i = seed_test_data_keycloak.lastname j
        -> i = j)
    /\ (seed_test_data_keycloak.email i = seed_test_data_keycloak.email j
        -> i = j).
Proof.
  intros i j Hi Hj.
  assert (Hl : "User" ++ format_03d i = "User" ++ format_03d j -> i = j).
  { intros H. cbn in H. inversion H as [Hpad].
    apply format_03d_inj; assumption. }
  assert (He : "perf" ++ format_03d i ++ "@test.local"
               = "perf" ++ format_03d j ++ "@test.local" -> i = j).
  { intros H. cbn in H. inversion H as [Hpad].
    apply append_cancel_r in Hpad. apply format_03d_inj; assumption. }
  repeat split; assumption.
Qed.

(** Witness for X15: users 7 and 8 get different addresses. *)
Lemma X15_lastname_email_injective_witness :
  seed_test_data.email 7 <> seed_test_data.email 8.
Proof.
  intros H.
  assert (H7 : 0 <= 7) by lia.
  assert (H8 : 0 <= 8) by lia.
  pose proof (proj1 (proj2 (X15_lastname_email_injective 7 8 H7 H8)) H) as Heq.
  discriminate Heq.
Defined.

(** X16: Backend A's [create_user] never raises and issues exactly one
    request whatever the reply; it returns the last segment of the
    [Location] header for status 200, 201 or 204 when that header is
    present and not empty, and [None] for every other reply, 409 and
    transport failures included. *)
Theorem X16_keycloak_create_user_total :
  forall (E : environment) (config : Config) (token : json)
         (realm username firstname lastname email : string) (w : world E),
    let rq := KeycloakProvider.create_user_request E config token realm
                username firstname lastname email in
    KeycloakProvider.create_user E config token realm username firstname
      lastname email w
    = (Ret (keycloak_id_of (answer w rq)), after w rq).
Proof.
  intros E config token realm username firstname lastname email w rq. subst rq.
  unfold KeycloakProvider.create_user, keycloak_id_of, location_uuid.
  run_py.
  match goal with |- context [handle E (srv w) ?rq] => case_reply w rq end;
    [|reflexivity].
  destruct (in_ (status_code r) [200; 201; 204]); [|reflexivity].
  destruct (header_get "Location" (headers r) =? "")%string; reflexivity.
Qed.

(** ** The user loop of seed_test_data.py, continued *)



Lemma seed_create_user_outcome E CONFIG token realm u f l e (w : world E) :
  forall res w',
    seed_test_data.create_user E CONFIG token realm u f l e w = (res, w') ->
    (exists v, res = Ret v) \/ res = Raise AttributeError.
Proof.
  unfold seed_test_data.create_user. run_py.
  match goal with |- context [handle E (srv w) ?rq] => case_reply w rq end;
    [|cbn; intros res w' H; injection H as <- _; eauto].
  destruct (in_ (status_code r) [200; 201]).
  - destruct (json_body r) as [[| | | | |d]|]; cbn;
      try (intros res w' H; injection H as <- _; eauto).
    destruct (dict_get d "data" (JObj [])) as [| | | | |inner]; cbn;
      try (intros res w' H; injection H as <- _; eauto).
    destruct (truthy (dict_get inner "id" JNull));
      intros res w' H; injection H as <- _; eauto.
  - destruct (in_ (status_code r) [400; 409]);
      intros res w' H; injection H as <- _; eauto.
Qed.

Lemma seed_loop_body_outcome E CONFIG token i c f (w : world E) :
  forall e w',
    seed_test_data.user_loop_body E CONFIG token i (c, f) w = (Raise e, w') ->
    e = AttributeError.
Proof.
  intros e w'. unfold seed_test_data.user_loop_body. unfold bind at 1.
  destruct (seed_test_data.create_user E CONFIG token
              (seed_test_data.perf_realm CONFIG) (seed_test_data.username i)
              "Perf" (seed_test_data.lastname i) (seed_test_data.email i) w)
    as [res w1] eqn:Hc.
  destruct (seed_create_user_outcome _ _ _ _ _ _ _ _ _ _ _ Hc) as [[v ->]| ->].
  - destruct (truthy v); [|discriminate].
    destruct (set_user_password_total E CONFIG token
                (seed_test_data.perf_realm CONFIG) v
                (seed_test_data.user_password CONFIG) w1)
      as (b & w2 & Hb & _).
    unfold bind. rewrite Hb. destruct b; discriminate.
  - intros H. injection H as <- _. reflexivity.
Qed.

(** X18: the only exception that can leave the user loop of
    seed_test_data.py is the [AttributeError] of a mis-shaped success body:
    the loop never ends the process through [sys.exit], and neither a
    transport failure nor a body that is not JSON interrupts it. *)
Theorem X18_seed_user_loop_only_attribute_error :
  forall (E : environment) (CONFIG : seed_test_data.CONFIG_t) (token : json)
         (w w' : world E) (e : exn),
    seed_test_data.create_test_users E CONFIG token w = (Raise e, w') ->
    e = AttributeError.
Proof.
  intros E CONFIG token w w' e. unfold seed_test_data.create_test_users.
  generalize (py_range 1 (seed_test_data.user_count CONFIG + 1)).
  generalize (0, 0) as s. intros s l. revert s w.
  induction l as [|i l IH]; intros [c f] w; cbn [for_in].
  - discriminate.
  - unfold bind.
    destruct (seed_test_data.user_loop_body E CONFIG token i (c, f) w)
      as [[s1|e1] w1] eqn:Hb.
    + apply IH.
    + intros H. injection H as <- _.
      apply (seed_loop_body_outcome E CONFIG token i c f w e1 w1 Hb).
Qed.

(** Witness for X18: a 201 reply whose body is an empty JSON array. *)
Lemma X18_seed_user_loop_only_attribute_error_witness :
  let w := scripted_world [Response (json_response 201 (JArr []))] [] in
  exists e,
    fst (seed_test_data.create_test_users scripted (sample_seed_config 2)
           (JStr "tok") w) = Raise e
    /\ e = AttributeError.
Proof.
  intros w. exists AttributeError. split; [reflexivity|].
  exact (X18_seed_user_loop_only_attribute_error scripted
           (sample_seed_config 2) (JStr "tok") w
           (snd (seed_test_data.create_test_users scripted
                   (sample_seed_config 2) (JStr "tok") w))
           AttributeError eq_refl).
Defined.
